(** * MarsArchitect: the habitat designer's layout store and derived metrics

    A shallow embedding of [src/components/habitat-designer.tsx]: the
    module table [MODULE_SPECS], the collision predicate
    [checkAABBCollision], the event handlers of [HabitatDesigner]
    ([addModule], [deleteModule], [updateModulePosition],
    [updateModuleRotation], [updateModuleScale], [saveDesign],
    [loadDesign]) and the memoised projections ([totalHardwareCost],
    [totalMass], ..., [logistics]).

    Numbers.  A JavaScript [number] is modelled as an exact rational [Q]:
    every literal of the source is a rational, comparisons are decided by
    [Qcompare], and the arithmetic is the field arithmetic of [Q].  NaN,
    the infinities, signed zero and rounding are outside this model.
    Numeric results are therefore compared with [==] ([Qeq]); structural
    statements (a list or a record is unchanged) use Leibniz equality. *)

From Stdlib Require Import List String Bool ZArith QArith Qabs Qround.
From Stdlib Require Import DecimalString DecimalZ Lia Lqa.
Import ListNotations.

Local Open Scope Q_scope.

(** ** JavaScript primitives used by the component *)

Abbreviation number := Q.

(** [a < b] on numbers. *)
Definition lt_num (a b : number) : bool :=
  match a ?= b with Lt => true | _ => false end.

(** [a > b] on numbers. *)
Definition gt_num (a b : number) : bool := lt_num b a.

(** [a <= b] on numbers. *)
Definition le_num (a b : number) : bool := Qle_bool a b.

(** [a >= b] on numbers. *)
Definition ge_num (a b : number) : bool := Qle_bool b a.

(** [Math.abs]. *)
Definition Math_abs (a : number) : number := Qabs a.

(** [Math.pow] at an integer exponent. *)
Definition Math_pow (a : number) (n : Z) : number := a ^ n.

(** [Math.PI], the double nearest to pi, as the rational it denotes. *)
Definition Math_PI : number := 884279719003555 # 281474976710656.

(** [Math.round]: the nearest integer, halves rounded up. *)
Definition Math_round (a : number) : number := inject_Z (Qfloor (a + (1 # 2))).

(** ** Module type definitions *)

Inductive ModuleType :=
| dormitory | eclss | lab | storage | airlock | greenhouse.

Definition ModuleType_eq_dec (a b : ModuleType) : {a = b} + {a <> b}.
Proof. decide equality. Defined.

(** The string a [ModuleType] value is at run time. *)
Definition ModuleType_string (t : ModuleType) : string :=
  match t with
  | dormitory => "dormitory"
  | eclss => "eclss"
  | lab => "lab"
  | storage => "storage"
  | airlock => "airlock"
  | greenhouse => "greenhouse"
  end%string.

(** The tuple type [[number, number, number]] and its three indices. *)
Definition Vec3 := (number * number * number)%type.

Inductive Index3 := I0 | I1 | I2.

Definition vget (v : Vec3) (i : Index3) : number :=
  let '(a, b, c) := v in
  match i with I0 => a | I1 => b | I2 => c end.

(** [w = [...v]; w[i] = x]. *)
Definition vset (v : Vec3) (i : Index3) (x : number) : Vec3 :=
  let '(a, b, c) := v in
  match i with I0 => (x, b, c) | I1 => (a, x, c) | I2 => (a, b, x) end.

Inductive Axis := ax_x | ax_y | ax_z.

(** [{ x: 0, y: 1, z: 2 }[axis]]. *)
Definition axisIndex (axis : Axis) : Index3 :=
  match axis with ax_x => I0 | ax_y => I1 | ax_z => I2 end.

Record ModuleData := mkModule {
  id : string;
  type : ModuleType;
  position : Vec3;
  rotation : Vec3;
  scale : number;
  cost : number;    (* Million USD *)
  mass : number;    (* kg *)
  volume : number   (* m^3 *)
}.

(** Object spreads [{ ...m, position }], [{ ...m, rotation }] and
    [{ ...m, scale, cost, mass, volume }]. *)
Definition with_position (m : ModuleData) (p : Vec3) : ModuleData :=
  mkModule (id m) (type m) p (rotation m) (scale m) (cost m) (mass m) (volume m).

Definition with_rotation (m : ModuleData) (r : Vec3) : ModuleData :=
  mkModule (id m) (type m) (position m) r (scale m) (cost m) (mass m) (volume m).

Definition with_scale (m : ModuleData) (s c ma v : number) : ModuleData :=
  mkModule (id m) (type m) (position m) (rotation m) s c ma v.

(** ** Module specifications *)

Inductive Geometry := box | cylinder.

Record ModuleSpec := mkSpec {
  name : string;
  baseCost : number;
  baseMass : number;
  baseVolume : number;
  color : string;
  geometry : Geometry
}.

Definition MODULE_SPECS (t : ModuleType) : ModuleSpec :=
  match t with
  | dormitory => mkSpec "Dormitory" 45 8000 120 "#3b82f6" cylinder
  | eclss => mkSpec "ECLSS" 150 12000 80 "#10b981" box
  | lab => mkSpec "Laboratory" 85 10000 150 "#8b5cf6" box
  | storage => mkSpec "Storage" 25 5000 60 "#f59e0b" box
  | airlock => mkSpec "Airlock" 35 6000 40 "#ef4444" cylinder
  | greenhouse => mkSpec "Greenhouse" 65 9000 100 "#22c55e" box
  end.

(** ** AABB collision detection *)

(** [checkAABBCollision] with its fifth parameter given. *)
Definition checkAABBCollision_size
    (pos1 : Vec3) (scale1 : number) (pos2 : Vec3) (scale2 : number)
    (size : number) : bool :=
  let halfSize1 := (size * scale1) / 2 in
  let halfSize2 := (size * scale2) / 2 in
  lt_num (Math_abs (vget pos1 I0 - vget pos2 I0)) (halfSize1 + halfSize2) &&
  lt_num (Math_abs (vget pos1 I1 - vget pos2 I1)) (halfSize1 + halfSize2) &&
  lt_num (Math_abs (vget pos1 I2 - vget pos2 I2)) (halfSize1 + halfSize2).

(** The default value of the parameter [size]; no caller passes another. *)
Definition DEFAULT_SIZE : number := 2.

Definition checkAABBCollision
    (pos1 : Vec3) (scale1 : number) (pos2 : Vec3) (scale2 : number) : bool :=
  checkAABBCollision_size pos1 scale1 pos2 scale2 DEFAULT_SIZE.

(** The predicate on two placed modules. *)
Definition collides (a b : ModuleData) : bool :=
  checkAABBCollision (position a) (scale a) (position b) (scale b).

(** ** Component state and the effects of a handler *)

(** One call a handler makes: a state setter, or [setTimeout] of a setter. *)
Inductive Effect :=
| SetModules (ms : list ModuleData)
| SetSelectedModuleId (sel : option string)
| SetCollisionError (err : option string)
| SetTimeout (callback : Effect) (delay : Z).

(** The [useState] cells of [HabitatDesigner] the handlers read and write,
    and the timeouts they have scheduled. *)
Record State := mkState {
  modules : list ModuleData;
  selectedModuleId : option string;
  collisionError : option string;
  timeouts : list (Effect * Z)
}.

(** [useState<ModuleData[]>([])], [useState(null)], [useState(null)]. *)
Definition initialState : State := mkState [] None None [].

Definition apply_effect (st : State) (e : Effect) : State :=
  match e with
  | SetModules ms =>
      mkState ms (selectedModuleId st) (collisionError st) (timeouts st)
  | SetSelectedModuleId sel =>
      mkState (modules st) sel (collisionError st) (timeouts st)
  | SetCollisionError err =>
      mkState (modules st) (selectedModuleId st) err (timeouts st)
  | SetTimeout callback delay =>
      mkState (modules st) (selectedModuleId st) (collisionError st)
              (timeouts st ++ [(callback, delay)])
  end.

Definition run (st : State) (es : list Effect) : State :=
  fold_left apply_effect es st.

(** [modules.find((m) => m.id === selectedModuleId)]; [null] equals no id. *)
Definition selectedModule (st : State) : option ModuleData :=
  match selectedModuleId st with
  | Some sid => find (fun m => String.eqb (id m) sid) (modules st)
  | None => None
  end.

(** The two calls every handler makes on a collision. *)
Definition COLLISION_MESSAGE : string :=
  "Collision Error! Geometry overlap not permitted.".

Definition reportCollision : list Effect :=
  [SetCollisionError (Some COLLISION_MESSAGE);
   SetTimeout (SetCollisionError None) 3000].

(** ** Handlers *)

(** [`${type}-${Date.now()}`], [now] being the value of [Date.now()]. *)
Definition newModuleId (t : ModuleType) (now : Z) : string :=
  (ModuleType_string t ++ "-" ++ NilZero.string_of_int (Z.to_int now))%string.

Definition newModule (t : ModuleType) (now : Z) : ModuleData :=
  let spec := MODULE_SPECS t in
  mkModule (newModuleId t now) t (0, 0, 0) (0, 0, 0) 1
           (baseCost spec) (baseMass spec) (baseVolume spec).

Definition addModule (t : ModuleType) (now : Z) (st : State) : list Effect :=
  let newModule := newModule t now in
  (* Check collision with existing modules *)
  let hasCollision :=
    existsb (fun m => checkAABBCollision (position newModule) (scale newModule)
                                         (position m) (scale m))
            (modules st) in
  if hasCollision then reportCollision
  else [SetModules (modules st ++ [newModule]);
        SetSelectedModuleId (Some (id newModule))].

Definition deleteModule (i : string) (st : State) : list Effect :=
  SetModules (filter (fun m => negb (String.eqb (id m) i)) (modules st)) ::
  match selectedModuleId st with
  | Some sid => if String.eqb sid i then [SetSelectedModuleId None] else []
  | None => []
  end.

Definition updateModulePosition (axis : Axis) (value : number) (st : State)
  : list Effect :=
  match selectedModule st with
  | None => []
  | Some selectedModule =>
      let newPosition := vset (position selectedModule) (axisIndex axis) value in
      (* Check collision *)
      let hasCollision :=
        existsb (fun m =>
                   negb (String.eqb (id m) (id selectedModule)) &&
                   checkAABBCollision newPosition (scale selectedModule)
                                      (position m) (scale m))
                (modules st) in
      if hasCollision then reportCollision
      else [SetModules
              (map (fun m => if String.eqb (id m) (id selectedModule)
                             then with_position m newPosition else m)
                   (modules st))]
  end.

Definition updateModuleRotation (axis : Axis) (degrees : number) (st : State)
  : list Effect :=
  match selectedModule st with
  | None => []
  | Some selectedModule =>
      let radians := (degrees * Math_PI) / 180 in
      let newRotation := vset (rotation selectedModule) (axisIndex axis) radians in
      [SetModules
         (map (fun m => if String.eqb (id m) (id selectedModule)
                        then with_rotation m newRotation else m)
              (modules st))]
  end.

Definition updateModuleScale (scale' : number) (st : State) : list Effect :=
  match selectedModule st with
  | None => []
  | Some selectedModule =>
      (* Check collision with new scale *)
      let hasCollision :=
        existsb (fun m =>
                   negb (String.eqb (id m) (id selectedModule)) &&
                   checkAABBCollision (position selectedModule) scale'
                                      (position m) (scale m))
                (modules st) in
      if hasCollision then reportCollision
      else
        let spec := MODULE_SPECS (type selectedModule) in
        let volumeRatio := Math_pow scale' 3 in
        [SetModules
           (map (fun m => if String.eqb (id m) (id selectedModule)
                          then with_scale m scale'
                                 (baseCost spec * volumeRatio)
                                 (baseMass spec * volumeRatio)
                                 (baseVolume spec * volumeRatio)
                          else m)
                (modules st))]
  end.

(** The user actions that reach the layout store. *)
Inductive Event :=
| AddModule (t : ModuleType) (now : Z)
| DeleteModule (i : string)
| SelectModule (i : string)
| UpdateModulePosition (axis : Axis) (value : number)
| UpdateModuleRotation (axis : Axis) (degrees : number)
| UpdateModuleScale (scale' : number).

Definition handle (ev : Event) (st : State) : list Effect :=
  match ev with
  | AddModule t now => addModule t now st
  | DeleteModule i => deleteModule i st
  | SelectModule i => [SetSelectedModuleId (Some i)]
  | UpdateModulePosition axis value => updateModulePosition axis value st
  | UpdateModuleRotation axis degrees => updateModuleRotation axis degrees st
  | UpdateModuleScale s => updateModuleScale s st
  end.

(** One event: the handler runs on the rendered state, then its setters
    take effect. *)
Definition step (st : State) (ev : Event) : State := run st (handle ev st).

Definition steps (st : State) (evs : list Event) : State := fold_left step evs st.

(** ** Derived metrics *)

(* Cost calculations *)
Definition COST_PER_KG_TO_MARS : number := 75000. (* USD per kg *)
Definition BASE_HABITAT_MASS : number := 10000.   (* kg *)

Definition totalHardwareCost (ms : list ModuleData) : number :=
  fold_left (fun sum m => sum + cost m) ms 0.

Definition totalMass (ms : list ModuleData) : number :=
  BASE_HABITAT_MASS + fold_left (fun sum m => sum + mass m) ms 0.

Definition totalLaunchCost (ms : list ModuleData) : number :=
  (totalMass ms * COST_PER_KG_TO_MARS) / 1000000. (* Convert to millions *)

Definition totalCost (ms : list ModuleData) : number :=
  totalHardwareCost ms + totalLaunchCost ms.

Definition totalVolume (ms : list ModuleData) : number :=
  fold_left (fun sum m => sum + volume m) ms 0.

(** [modules.length] as a number. *)
Definition length_num (ms : list ModuleData) : number :=
  inject_Z (Z.of_nat (List.length ms)).

Module RadiationShielding.
Record t := mk { score : number; required : number; pass : bool }.
End RadiationShielding.

Definition radiationShielding (ms : list ModuleData) : RadiationShielding.t :=
  (* Mock calculation: more modules = better shielding *)
  let shieldingScore := length_num ms * 15 + totalMass ms / 1000 in
  let required := 200 in
  RadiationShielding.mk shieldingScore required (ge_num shieldingScore required).

Module StructuralLoad.
Record t := mk { pressure : number; limit : number; pass : bool }.
End StructuralLoad.

Definition structuralLoad (ms : list ModuleData) : StructuralLoad.t :=
  (* Mock calculation: pressure from regolith covering *)
  let pressure := (totalMass ms / 100) * (15 # 10) in (* kPa *)
  let limit := 350 in
  StructuralLoad.mk pressure limit (le_num pressure limit).

Module NhvCompliance.
Record t := mk { actual : number; required : number; pass : bool }.
End NhvCompliance.

Definition nhvCompliance (ms : list ModuleData) : NhvCompliance.t :=
  (* NASA requirement: 115.83 m^3 for 4 crew long duration *)
  let required := 11583 # 100 in
  NhvCompliance.mk (totalVolume ms) required (ge_num (totalVolume ms) required).

Module Logistics.
Record t := mk {
  vehicle : string;
  launchWindow : string;
  secondaryWindow : string;
  structureMass : number;
  payloadMass : number;
  propellantMass : number;
  totalDeliveryMass : number
}.
End Logistics.

Definition logistics (ms : list ModuleData) : Logistics.t :=
  let dryMass := totalMass ms in
  let propellantMass := dryMass * 4 in (* 4:1 propellant ratio *)
  let totalDeliveryMass := dryMass + propellantMass in
  Logistics.mk
    (if gt_num (totalMass ms) 50000
     then "Starship HLS Variant" else "Ares V Heavy Lift")
    "2031 Q1"
    "2033 Q3"
    (Math_round (dryMass * (6 # 10)))
    (Math_round (dryMass * (4 # 10)))
    (Math_round propellantMass)
    (Math_round totalDeliveryMass).

(** ** Save and load *)

(** The object [{ modules, timestamp }] that [saveDesign] serialises. *)
Record DesignData := mkDesign {
  design_modules : list ModuleData;
  timestamp : string
}.

Definition STORAGE_KEY : string := "mars-architect-design".

Section Persistence.

(** The runtime's JSON codec and date formatting are not part of the
    repository; they are parameters.  [Blob] is what [localStorage]
    holds, [JSON_parse] answers [None] where [JSON.parse] (or reading a
    field of its result) throws. *)
Variable Blob : Type.
Variable JSON_stringify : DesignData -> Blob.
Variable JSON_parse : Blob -> option DesignData.
Variable toLocaleString : string -> string.

(** The page: component state, [localStorage], and the alerts shown. *)
Record Page := mkPage {
  ui : State;
  localStorage : string -> option Blob;
  alerts : list string
}.

(** [localStorage.setItem(key, value)]. *)
Definition setItem (store : string -> option Blob) (key : string) (value : Blob)
  : string -> option Blob :=
  fun k => if String.eqb k key then Some value else store k.

(** [saveDesign]; [nowISO] is [new Date().toISOString()]. *)
Definition saveDesign (nowISO : string) (pg : Page) : Page :=
  let designData := mkDesign (modules (ui pg)) nowISO in
  mkPage (ui pg)
         (setItem (localStorage pg) STORAGE_KEY (JSON_stringify designData))
         (alerts pg ++ ["Design saved successfully!"%string]).

Definition loadDesign (pg : Page) : Page :=
  match localStorage pg STORAGE_KEY with
  | Some saved =>
      match JSON_parse saved with
      | Some designData =>
          mkPage (run (ui pg) [SetModules (design_modules designData);
                               SetSelectedModuleId None])
                 (localStorage pg)
                 (alerts pg ++
                    [("Design loaded from " ++
                      toLocaleString (timestamp designData))%string])
      | None =>
          mkPage (ui pg) (localStorage pg)
                 (alerts pg ++ ["Failed to load design"%string])
      end
  | None =>
      mkPage (ui pg) (localStorage pg)
             (alerts pg ++ ["No saved design found"%string])
  end.

End Persistence.

Arguments mkPage {Blob}.
Arguments ui {Blob}.
Arguments localStorage {Blob}.
Arguments alerts {Blob}.
Arguments setItem {Blob}.
Arguments saveDesign {Blob}.
Arguments loadDesign {Blob}.

(** ** Specification vocabulary *)

(** No two modules of the layout (two distinct places of the list) collide. *)
Definition nonOverlapping (ms : list ModuleData) : Prop :=
  forall i j a b,
    i <> j -> nth_error ms i = Some a -> nth_error ms j = Some b ->
    collides a b = false.

(** The ids of the layout are pairwise distinct. *)
Definition uniqueIds (ms : list ModuleData) : Prop := NoDup (map id ms).

(** The handler went through to [setModules]. *)
Definition succeeds (ev : Event) (st : State) : Prop :=
  exists ms, handle ev st = SetModules ms :: nil \/
             exists sel, handle ev st = [SetModules ms; SetSelectedModuleId sel].

(** The handler took its collision branch. *)
Definition rejected (ev : Event) (st : State) : Prop :=
  handle ev st = reportCollision.

(** A layout the store reaches from the empty one when [Date.now()] gives
    the same millisecond to two clicks on "Dormitory": two modules with one
    id, the first moved to x = 5, the second at the origin and selected. *)
Definition twinState : State :=
  steps initialState
        [AddModule dormitory 1000; UpdateModulePosition ax_x 5;
         AddModule dormitory 1000].

(** Executable forms of the two layout conditions. *)
Fixpoint nonOverlappingb (ms : list ModuleData) : bool :=
  match ms with
  | [] => true
  | a :: l => forallb (fun b => negb (collides a b)) l && nonOverlappingb l
  end.

Fixpoint uniqueIdsb (ms : list ModuleData) : bool :=
  match ms with
  | [] => true
  | a :: l =>
      negb (existsb (fun b => String.eqb (id b) (id a)) l) && uniqueIdsb l
  end.

(** The candidate geometry of a failable operation overlaps an existing
    module that the handler compares it with: any module for [addModule],
    any module of another id than the selected one for the two updates. *)
Definition blocked (ev : Event) (st : State) : Prop :=
  match ev with
  | AddModule t now =>
      exists m, In m (modules st) /\ collides (newModule t now) m = true
  | UpdateModulePosition axis value =>
      exists sel m,
        selectedModule st = Some sel /\ In m (modules st) /\
        id m <> id sel /\
        checkAABBCollision (vset (position sel) (axisIndex axis) value)
                           (scale sel) (position m) (scale m) = true
  | UpdateModuleScale s =>
      exists sel m,
        selectedModule st = Some sel /\ In m (modules st) /\
        id m <> id sel /\
        checkAABBCollision (position sel) s (position m) (scale m) = true
  | _ => False
  end.

(** A dormitory at the origin, selected. *)
Definition oneDormitory : State :=
  step initialState (AddModule dormitory 1000).

(** A dormitory moved to x = 5, selected. *)
Definition movedDormitory : State :=
  steps initialState [AddModule dormitory 1000; UpdateModulePosition ax_x 5].

(** A dormitory at x = 5 and a lab at the origin, the lab selected. *)
Definition dormitoryAndLab : State :=
  steps initialState
        [AddModule dormitory 1000; UpdateModulePosition ax_x 5;
         AddModule lab 2000].

(** The sum of a field over the layout, as the specification words it. *)
Fixpoint sumOf (f : ModuleData -> number) (ms : list ModuleData) : number :=
  match ms with
  | [] => 0
  | m :: l => f m + sumOf f l
  end.

(** A module as [addModule] creates it, placed at [p]. *)
Definition placed (t : ModuleType) (now : Z) (p : Vec3) : ModuleData :=
  with_position (newModule t now) p.

(** Five dormitories in a row, three units apart: total mass 50000. *)
Definition fiveDormitories : State :=
  steps initialState
        [AddModule dormitory 1; UpdateModulePosition ax_x 3;
         AddModule dormitory 2; UpdateModulePosition ax_x 6;
         AddModule dormitory 3; UpdateModulePosition ax_x 9;
         AddModule dormitory 4; UpdateModulePosition ax_x 12;
         AddModule dormitory 5].

(** A single storage module whose cached mass and volume are given. *)
Definition loadedStorage (ma v : number) : list ModuleData :=
  [mkModule "storage-1" storage (0, 0, 0) (0, 0, 0) 1 25 ma v].

(** A page showing [st], with nothing stored and no alert shown yet. *)
Definition freshPage (Blob : Type) (st : State) : Page Blob :=
  mkPage st (fun _ => None) [].

(** ** Vocabulary for the properties of the handlers and metrics *)

(** The three handlers that edit the selected module. *)
Definition isUpdate (ev : Event) : bool :=
  match ev with
  | UpdateModulePosition _ _ | UpdateModuleRotation _ _ | UpdateModuleScale _ =>
      true
  | _ => false
  end.

(** The events that write no cost, mass or volume: moving, rotating and
    selecting. *)
Definition isCosmetic (ev : Event) : bool :=
  match ev with
  | UpdateModulePosition _ _ | UpdateModuleRotation _ _ | SelectModule _ => true
  | _ => false
  end.

(** The selected id, when there is one, is the id of a module of the layout. *)
Definition selectionValid (st : State) : Prop :=
  match selectedModuleId st with
  | None => True
  | Some sid => In sid (map id (modules st))
  end.

(** A module as the handlers make them: its id was built by [addModule]
    from its type, and its cached cost, mass and volume are the base values
    of its type times the cube of its scale. *)
Definition cacheConsistent (m : ModuleData) : Prop :=
  (exists now, id m = newModuleId (type m) now) /\
  cost m == baseCost (MODULE_SPECS (type m)) * scale m ^ 3 /\
  mass m == baseMass (MODULE_SPECS (type m)) * scale m ^ 3 /\
  volume m == baseVolume (MODULE_SPECS (type m)) * scale m ^ 3.

(** A run in which [addModule] is never given an id the layout already has
    and only modules of the layout are clicked. *)
Fixpoint freshRun (st : State) (evs : list Event) : Prop :=
  match evs with
  | [] => True
  | ev :: rest =>
      match ev with
      | AddModule t now => ~ In (newModuleId t now) (map id (modules st))
      | SelectModule i => In i (map id (modules st))
      | _ => True
      end /\ freshRun (step st ev) rest
  end.

(** A dormitory at x = 5 and a lab at the origin, nothing selected. *)
Definition nothingSelected : State :=
  mkState (modules dormitoryAndLab) None None [].

(** Twelve dormitories rescaled to a half (1000 kg each), as the metrics
    see them. *)
Definition twelveHalfDormitories : list ModuleData :=
  repeat (with_scale (newModule dormitory 1000) (1 # 2)
                     (45 * (1 # 8)) (8000 * (1 # 8)) (120 * (1 # 8)))
         12.

(** * Properties *)

(** ** Number comparisons *)

Lemma lt_num_spec (a b : number) : lt_num a b = true <-> a < b.
Proof.
  unfold lt_num. rewrite Qlt_alt.
  destruct (a ?= b); split; intro H; try reflexivity; discriminate H.
Qed.

Lemma lt_num_compat (a a' b b' : number) :
  a == a' -> b == b' -> lt_num a b = lt_num a' b'.
Proof.
  intros Ha Hb. unfold lt_num. now rewrite Ha, Hb.
Qed.

Lemma gt_num_spec (a b : number) : gt_num a b = true <-> b < a.
Proof. apply lt_num_spec. Qed.

Lemma ge_num_spec (a b : number) : ge_num a b = true <-> b <= a.
Proof. apply Qle_bool_iff. Qed.

Lemma le_num_spec (a b : number) : le_num a b = true <-> a <= b.
Proof. apply Qle_bool_iff. Qed.

(** ** The collision predicate *)

Lemma checkAABBCollision_size_spec p1 s1 p2 s2 size :
  checkAABBCollision_size p1 s1 p2 s2 size = true <->
  forall i : Index3,
    Qabs (vget p1 i - vget p2 i) < (size * s1 + size * s2) / 2.
Proof.
  unfold checkAABBCollision_size, Math_abs.
  rewrite !andb_true_iff, !lt_num_spec.
  assert (E : (size * s1) / 2 + (size * s2) / 2 == (size * s1 + size * s2) / 2)
    by field.
  rewrite E. split.
  - intros [[H0 H1] H2] [ | | ]; assumption.
  - intro H. repeat split; apply H.
Qed.

Lemma checkAABBCollision_sym p1 s1 p2 s2 :
  checkAABBCollision p1 s1 p2 s2 = checkAABBCollision p2 s2 p1 s1.
Proof.
  unfold checkAABBCollision, checkAABBCollision_size, Math_abs.
  assert (A : forall a b : Q, Qabs (a - b) == Qabs (b - a))
    by (intros a b; rewrite (Qabs_Qminus a b); reflexivity).
  assert (S : DEFAULT_SIZE * s1 / 2 + DEFAULT_SIZE * s2 / 2 ==
              DEFAULT_SIZE * s2 / 2 + DEFAULT_SIZE * s1 / 2) by ring.
  rewrite (lt_num_compat _ _ _ _ (A (vget p1 I0) (vget p2 I0)) S).
  rewrite (lt_num_compat _ _ _ _ (A (vget p1 I1) (vget p2 I1)) S).
  rewrite (lt_num_compat _ _ _ _ (A (vget p1 I2) (vget p2 I2)) S).
  reflexivity.
Qed.

Lemma collides_sym a b : collides a b = collides b a.
Proof. apply checkAABBCollision_sym. Qed.


(** ** Running effects *)

Lemma step_addModule_modules t now st :
  modules (step st (AddModule t now)) =
  if existsb (fun m => checkAABBCollision (0, 0, 0) 1 (position m) (scale m))
             (modules st)
  then modules st else modules st ++ [newModule t now].
Proof.
  unfold step, handle, addModule. cbn [position scale newModule].
  destruct (existsb _ (modules st)); reflexivity.
Qed.

Lemma step_deleteModule_modules i st :
  modules (step st (DeleteModule i)) =
  filter (fun m => negb (String.eqb (id m) i)) (modules st).
Proof.
  unfold step, handle, deleteModule.
  destruct (selectedModuleId st) as [sid | ]; [destruct (String.eqb sid i) | ];
    reflexivity.
Qed.

Lemma selectedModule_In st sel :
  selectedModule st = Some sel ->
  In sel (modules st) /\ selectedModuleId st = Some (id sel).
Proof.
  unfold selectedModule. destruct (selectedModuleId st) as [sid | ]; [ | discriminate].
  intro H. apply find_some in H. destruct H as [Hin Heq].
  apply String.eqb_eq in Heq. subst sid. split; [assumption | reflexivity].
Qed.

Lemma existsb_false {A} (f : A -> bool) (l : list A) :
  existsb f l = false -> forall x, In x l -> f x = false.
Proof.
  intros H x Hx. destruct (f x) eqn:E; [ | reflexivity].
  rewrite <- H. symmetry. apply existsb_exists. exists x. split; assumption.
Qed.

(** ** The non-overlap invariant *)

Lemma nonOverlapping_cons a l :
  nonOverlapping (a :: l) <->
  Forall (fun b => collides a b = false) l /\ nonOverlapping l.
Proof.
  split.
  - intro H. split.
    + apply Forall_forall. intros b Hb.
      apply In_nth_error in Hb. destruct Hb as [j Hj].
      apply (H 0%nat (S j) a b); [discriminate | reflexivity | exact Hj].
    + intros i j x y Hij Hi Hj.
      apply (H (S i) (S j) x y); [congruence | exact Hi | exact Hj].
  - intros [Hall Hl] i j x y Hij Hi Hj.
    rewrite Forall_forall in Hall.
    destruct i as [ | i], j as [ | j]; cbn in Hi, Hj.
    + congruence.
    + injection Hi as <-. apply Hall. eapply nth_error_In; eassumption.
    + injection Hj as <-. rewrite collides_sym. apply Hall.
      eapply nth_error_In; eassumption.
    + apply (Hl i j x y); [congruence | assumption | assumption].
Qed.

Lemma nonOverlapping_nil : nonOverlapping [].
Proof. intros [ | i] j a b _ Hi; discriminate Hi. Qed.

Lemma nonOverlapping_filter f l :
  nonOverlapping l -> nonOverlapping (filter f l).
Proof.
  induction l as [ | a l IH]; intro H; [exact H | ].
  apply nonOverlapping_cons in H. destruct H as [Hall Hl]. cbn.
  destruct (f a).
  - apply nonOverlapping_cons. split; [ | apply IH, Hl].
    rewrite Forall_forall in *. intros b Hb. apply Hall.
    apply filter_In in Hb. apply Hb.
  - apply IH, Hl.
Qed.

Lemma nonOverlapping_snoc l x :
  nonOverlapping l -> (forall b, In b l -> collides x b = false) ->
  nonOverlapping (l ++ [x]).
Proof.
  induction l as [ | a l IH]; intros H Hx; cbn.
  - apply nonOverlapping_cons. split; [constructor | apply nonOverlapping_nil].
  - apply nonOverlapping_cons in H. destruct H as [Hall Hl].
    apply nonOverlapping_cons. split.
    + apply Forall_app. split; [exact Hall | ].
      constructor; [ | constructor].
      rewrite collides_sym. apply Hx. left. reflexivity.
    + apply IH; [exact Hl | ]. intros b Hb. apply Hx. right. exact Hb.
Qed.

(** A map that keeps every position and scale keeps the invariant. *)
Lemma nonOverlapping_map_same_box (f : ModuleData -> ModuleData) l :
  (forall m, position (f m) = position m /\ scale (f m) = scale m) ->
  nonOverlapping l -> nonOverlapping (map f l).
Proof.
  intros Hf H i j a b Hij Hi Hj.
  rewrite nth_error_map in Hi, Hj.
  destruct (nth_error l i) as [a0 | ] eqn:Ei; [ | discriminate].
  destruct (nth_error l j) as [b0 | ] eqn:Ej; [ | discriminate].
  injection Hi as <-. injection Hj as <-.
  unfold collides.
  destruct (Hf a0) as [-> ->]. destruct (Hf b0) as [-> ->].
  apply (H i j a0 b0 Hij Ei Ej).
Qed.

Lemma uniqueIds_eq l a b :
  uniqueIds l -> In a l -> In b l -> id a = id b -> a = b.
Proof.
  unfold uniqueIds. induction l as [ | x l IH]; cbn; intros Hnd Ha Hb E.
  - contradiction.
  - inversion Hnd as [ | ? ? Hnotin Hnd']; subst.
    destruct Ha as [<- | Ha], Hb as [<- | Hb].
    + reflexivity.
    + exfalso. apply Hnotin. rewrite E. apply in_map. exact Hb.
    + exfalso. apply Hnotin. rewrite <- E. apply in_map. exact Ha.
    + apply IH; assumption.
Qed.

(** Replacing the one module whose id is [sid] keeps the invariant when
    the replacement collides with no module of another id. *)
Lemma nonOverlapping_update sid (upd : ModuleData -> ModuleData) l :
  uniqueIds l -> nonOverlapping l ->
  (forall a b, In a l -> In b l -> id a = sid -> id b <> sid ->
               collides (upd a) b = false) ->
  nonOverlapping
    (map (fun m => if String.eqb (id m) sid then upd m else m) l).
Proof.
  unfold uniqueIds.
  induction l as [ | a l IH]; intros Hnd H Hupd; [exact H | ].
  cbn [map]. inversion Hnd as [ | ? ? Hnotin Hnd']; subst.
  apply nonOverlapping_cons in H. destruct H as [Hall Hl].
  rewrite Forall_forall in Hall.
  apply nonOverlapping_cons. split.
  - apply Forall_forall. intros b' Hb'.
    apply in_map_iff in Hb'. destruct Hb' as [b [<- Hb]].
    destruct (String.eqb (id a) sid) eqn:Ea, (String.eqb (id b) sid) eqn:Eb.
    + apply String.eqb_eq in Ea, Eb. exfalso. apply Hnotin.
      rewrite Ea, <- Eb. apply in_map. exact Hb.
    + apply String.eqb_eq in Ea. apply String.eqb_neq in Eb.
      apply Hupd; [left; reflexivity | right; exact Hb | exact Ea | exact Eb].
    + apply String.eqb_neq in Ea. apply String.eqb_eq in Eb.
      rewrite collides_sym.
      apply Hupd; [right; exact Hb | left; reflexivity | exact Eb | exact Ea].
    + apply Hall, Hb.
  - apply IH; [exact Hnd' | exact Hl | ].
    intros x y Hx Hy. apply Hupd; right; assumption.
Qed.

Lemma nonOverlappingb_spec l : nonOverlappingb l = true <-> nonOverlapping l.
Proof.
  induction l as [ | a l IH]; cbn.
  - split; [intros _; apply nonOverlapping_nil | reflexivity].
  - rewrite nonOverlapping_cons, andb_true_iff, forallb_forall, Forall_forall, IH.
    split; intros [H1 H2]; (split; [ | exact H2]); intros b Hb;
      specialize (H1 b Hb).
    + now apply negb_true_iff in H1.
    + now apply negb_true_iff.
Qed.

Lemma uniqueIdsb_spec l : uniqueIdsb l = true -> uniqueIds l.
Proof.
  unfold uniqueIds. induction l as [ | a l IH]; cbn; intro H.
  - constructor.
  - apply andb_true_iff in H. destruct H as [H1 H2].
    apply negb_true_iff in H1. constructor; [ | apply IH, H2].
    intro Hin. apply in_map_iff in Hin. destruct Hin as [b [Eb Hb]].
    assert (E := existsb_false _ _ H1 b Hb). cbn in E.
    apply String.eqb_neq in E. contradiction.
Qed.

(** C1 (amended).  On a layout whose ids are pairwise distinct and in which
    no two modules collide, every operation of the store ([addModule],
    [deleteModule], [updateModulePosition], [updateModuleRotation],
    [updateModuleScale], and selecting a module), successful or not, leaves
    a layout in which no two modules collide. *)
Theorem C1_non_overlap_preserved (st : State) (ev : Event) :
  uniqueIds (modules st) ->
  nonOverlapping (modules st) ->
  nonOverlapping (modules (step st ev)).
Proof.
  intros Hu H. destruct ev as [t now | i | i | axis value | axis degrees | s].
  - rewrite step_addModule_modules.
    destruct (existsb _ (modules st)) eqn:E; [exact H | ].
    apply nonOverlapping_snoc; [exact H | ].
    intros b Hb. exact (existsb_false _ _ E b Hb).
  - rewrite step_deleteModule_modules. apply nonOverlapping_filter, H.
  - exact H.
  - unfold step, handle, updateModulePosition.
    destruct (selectedModule st) as [sel | ] eqn:Es; [ | exact H].
    cbv zeta. destruct (existsb _ (modules st)) eqn:E; [exact H | ].
    cbn [run fold_left apply_effect modules].
    apply nonOverlapping_update; [exact Hu | exact H | ].
    intros a b Ha Hb Ea Eb.
    apply selectedModule_In in Es. destruct Es as [Hsel _].
    assert (a = sel) by (apply (uniqueIds_eq (modules st)); assumption).
    subst a. apply String.eqb_neq in Eb.
    assert (F := existsb_false _ _ E b Hb). cbv beta in F.
    rewrite Eb in F. exact F.
  - unfold step, handle, updateModuleRotation.
    destruct (selectedModule st) as [sel | ] eqn:Es; [ | exact H].
    cbn [run fold_left apply_effect modules].
    apply nonOverlapping_map_same_box; [ | exact H].
    intro m. destruct (String.eqb (id m) (id sel)); split; reflexivity.
  - unfold step, handle, updateModuleScale.
    destruct (selectedModule st) as [sel | ] eqn:Es; [ | exact H].
    cbv zeta. destruct (existsb _ (modules st)) eqn:E; [exact H | ].
    cbn [run fold_left apply_effect modules].
    apply nonOverlapping_update; [exact Hu | exact H | ].
    intros a b Ha Hb Ea Eb.
    apply selectedModule_In in Es. destruct Es as [Hsel _].
    assert (a = sel) by (apply (uniqueIds_eq (modules st)); assumption).
    subst a. apply String.eqb_neq in Eb.
    assert (F := existsb_false _ _ E b Hb). cbv beta in F.
    rewrite Eb in F. exact F.
Qed.

(** The amended C1 applied: a dormitory at x = 5 and a selected lab at the
    origin, the lab moved to x = 3 (still clear of the dormitory). *)
Lemma C1_non_overlap_preserved_witness :
  uniqueIds (modules dormitoryAndLab) /\
  nonOverlapping (modules dormitoryAndLab) /\
  nonOverlapping (modules (step dormitoryAndLab (UpdateModulePosition ax_x 3))).
Proof.
  assert (Hu : uniqueIds (modules dormitoryAndLab))
    by (apply uniqueIdsb_spec; vm_compute; reflexivity).
  assert (Hn : nonOverlapping (modules dormitoryAndLab))
    by (apply nonOverlappingb_spec; vm_compute; reflexivity).
  split; [exact Hu | split; [exact Hn | ]].
  apply (C1_non_overlap_preserved dormitoryAndLab (UpdateModulePosition ax_x 3) Hu Hn).
Defined.

(** C1 as stated fails.  In [twinState] (two modules sharing one id, at
    x = 5 and at the origin) no two modules collide; moving the selected
    module to x = 0 succeeds, and both modules then sit at the origin. *)
Lemma C1_counterexample :
  nonOverlapping (modules twinState) /\
  succeeds (UpdateModulePosition ax_x 0) twinState /\
  ~ nonOverlapping (modules (step twinState (UpdateModulePosition ax_x 0))).
Proof.
  split; [ | split].
  - apply nonOverlappingb_spec. vm_compute. reflexivity.
  - eexists. left. vm_compute. reflexivity.
  - intro H. apply nonOverlappingb_spec in H. vm_compute in H. discriminate H.
Qed.

(** ** Rejection on collision *)

Lemma existsb_true_intro {A} (f : A -> bool) (l : list A) x :
  In x l -> f x = true -> existsb f l = true.
Proof. intros Hin Hf. apply existsb_exists. exists x. split; assumption. Qed.

Lemma run_reportCollision st :
  modules (run st reportCollision) = modules st /\
  selectedModuleId (run st reportCollision) = selectedModuleId st /\
  collisionError (run st reportCollision) = Some COLLISION_MESSAGE.
Proof. repeat split. Qed.

(** C3 (amended).  When the candidate geometry of [addModule] overlaps an
    existing module, or that of [updateModulePosition] or
    [updateModuleScale] overlaps an existing module whose id differs from
    the selected module's, the handler only reports the collision (the one
    message, and the timeout that clears it): the module list and the
    selection after the event are those before it. *)
Theorem C3_collision_rejected (st : State) (ev : Event) :
  blocked ev st ->
  rejected ev st /\
  modules (step st ev) = modules st /\
  selectedModuleId (step st ev) = selectedModuleId st /\
  collisionError (step st ev) = Some COLLISION_MESSAGE.
Proof.
  intro Hb. unfold rejected.
  assert (Hh : handle ev st = reportCollision).
  { destruct ev as [t now | i | i | axis value | axis degrees | s];
      cbn in Hb; try contradiction.
    - destruct Hb as (m & Hin & Hc). cbn [handle]. unfold addModule.
      cbv zeta.
      rewrite (existsb_true_intro _ _ m Hin); [reflexivity | exact Hc].
    - destruct Hb as (sel & m & Hs & Hin & Hid & Hc).
      cbn [handle]. unfold updateModulePosition. rewrite Hs. cbv zeta.
      rewrite (existsb_true_intro _ _ m Hin); [reflexivity | ].
      apply String.eqb_neq in Hid. rewrite Hid, Hc. reflexivity.
    - destruct Hb as (sel & m & Hs & Hin & Hid & Hc).
      cbn [handle]. unfold updateModuleScale. rewrite Hs. cbv zeta.
      rewrite (existsb_true_intro _ _ m Hin); [reflexivity | ].
      apply String.eqb_neq in Hid. rewrite Hid, Hc. reflexivity. }
  split; [exact Hh | ]. unfold step. rewrite Hh. apply run_reportCollision.
Qed.

(** The amended C3 applied: a second module added while the first one is
    still at the origin. *)
Lemma C3_collision_rejected_witness :
  blocked (AddModule lab 2000) oneDormitory /\
  rejected (AddModule lab 2000) oneDormitory /\
  modules (step oneDormitory (AddModule lab 2000)) = modules oneDormitory.
Proof.
  assert (Hb : blocked (AddModule lab 2000) oneDormitory).
  { exists (newModule dormitory 1000). split; [left | vm_compute]; reflexivity. }
  split; [exact Hb | ].
  destruct (C3_collision_rejected oneDormitory (AddModule lab 2000) Hb)
    as (Hh & Hm & _).
  split; [exact Hh | exact Hm].
Defined.

(** C3 as stated fails.  In [twinState] the selected module is the one at
    place 0; its candidate position x = 1 overlaps the other existing
    module (place 1, at the origin), yet the handler does not report a
    collision and the module list changes. *)
Lemma C3_counterexample :
  selectedModule twinState = nth_error (modules twinState) 0 /\
  (exists b, nth_error (modules twinState) 1 = Some b /\
             checkAABBCollision (1, 0, 0) 1 (position b) (scale b) = true) /\
  ~ rejected (UpdateModulePosition ax_x 1) twinState /\
  succeeds (UpdateModulePosition ax_x 1) twinState /\
  modules (step twinState (UpdateModulePosition ax_x 1)) <> modules twinState.
Proof.
  split; [vm_compute; reflexivity | split; [ | split; [ | split]]].
  - eexists. split; vm_compute; reflexivity.
  - unfold rejected. vm_compute. discriminate.
  - eexists. left. vm_compute. reflexivity.
  - vm_compute. discriminate.
Qed.

(** ** Rescaling *)

Lemma succeeds_not_rejected ev st : succeeds ev st -> handle ev st <> reportCollision.
Proof.
  intros [ms [H | [sel H]]] E; rewrite H in E; discriminate E.
Qed.



Example rescale_half :
  map (fun m => (scale m, cost m, mass m, volume m))
      (modules (step movedDormitory (UpdateModuleScale (1 # 2)))) =
  [(1 # 2, 45 * (1 # 8), 8000 * (1 # 8), 120 * (1 # 8))].
Proof. reflexivity. Qed.

(** ** Adding a module *)

Lemma to_int_proper (z : Z) :
  Z.to_int z <> Decimal.Pos Decimal.Nil /\ Z.to_int z <> Decimal.Neg Decimal.Nil.
Proof.
  assert (E : Z.to_int z = Decimal.norm (Z.to_int z)).
  { rewrite <- (DecimalZ.to_of (Z.to_int z)), DecimalZ.of_to. reflexivity. }
  destruct (Z.to_int z) as [d | d]; cbn in E.
  - split; [ | discriminate]. intro H. injection E as E. injection H as H.
    rewrite H in E. symmetry in E. revert E. cbn. discriminate.
  - split; [discriminate | ]. intro H. injection H as H. subst d.
    cbn in E. discriminate E.
Qed.

Lemma string_of_timestamp_inj (a b : Z) :
  NilZero.string_of_int (Z.to_int a) = NilZero.string_of_int (Z.to_int b) ->
  a = b.
Proof.
  intro H. apply DecimalZ.to_int_inj.
  destruct (to_int_proper a) as [Ha1 Ha2], (to_int_proper b) as [Hb1 Hb2].
  assert (Ea := NilZero.isi _ Ha1 Ha2). assert (Eb := NilZero.isi _ Hb1 Hb2).
  rewrite H in Ea. rewrite Ea in Eb. injection Eb as Eb. exact Eb.
Qed.

(** The id built by [addModule] determines the type and the timestamp. *)
Lemma newModuleId_inj t now t' now' :
  newModuleId t now = newModuleId t' now' -> t = t' /\ now = now'.
Proof.
  unfold newModuleId. intro H.
  destruct t, t'; cbn in H; try discriminate H;
    (split; [reflexivity | ]); apply string_of_timestamp_inj;
    repeat (injection H as H); exact H.
Qed.

Lemma succeeds_addModule t now st :
  succeeds (AddModule t now) st ->
  handle (AddModule t now) st =
  [SetModules (modules st ++ [newModule t now]);
   SetSelectedModuleId (Some (newModuleId t now))].
Proof.
  intro Hok. apply succeeds_not_rejected in Hok.
  cbn [handle] in *. unfold addModule in *. cbv zeta in *.
  destruct (existsb _ (modules st)); [contradiction Hok; reflexivity | reflexivity].
Qed.

(** C5 (amended).  When [addModule type] succeeds, the prior modules are
    unchanged and in the same order and one module is appended after them:
    of the given type, at position (0,0,0), rotation (0,0,0), scale 1,
    with the cost, mass and volume of its type in [MODULE_SPECS]; its id is
    the type's name, a dash and the decimal value of [Date.now()]; that id
    becomes the selected id; and it differs from the id of every existing
    module whose id was built the same way from another type or another
    timestamp. *)
Theorem C5_addModule_postcondition (st : State) (t : ModuleType) (now : Z) :
  succeeds (AddModule t now) st ->
  exists m',
    modules (step st (AddModule t now)) = modules st ++ [m'] /\
    type m' = t /\
    position m' = (0, 0, 0) /\ rotation m' = (0, 0, 0) /\ scale m' = 1 /\
    cost m' = baseCost (MODULE_SPECS t) /\
    mass m' = baseMass (MODULE_SPECS t) /\
    volume m' = baseVolume (MODULE_SPECS t) /\
    id m' = newModuleId t now /\
    selectedModuleId (step st (AddModule t now)) = Some (id m') /\
    forall m t0 now0,
      In m (modules st) -> id m = newModuleId t0 now0 ->
      t0 <> t \/ now0 <> now -> id m <> id m'.
Proof.
  intro Hok. exists (newModule t now).
  unfold step. rewrite (succeeds_addModule _ _ _ Hok).
  cbn [run fold_left apply_effect modules selectedModuleId newModule
       id type position rotation scale cost mass volume].
  repeat (split; [reflexivity | ]).
  intros m t0 now0 _ Hid Hdiff E. rewrite Hid in E.
  apply newModuleId_inj in E. destruct E as [Et En].
  destruct Hdiff as [Hd | Hd]; contradiction.
Qed.

(** The amended C5 applied: a lab added next to the moved dormitory. *)
Lemma C5_addModule_postcondition_witness :
  succeeds (AddModule lab 2000) movedDormitory /\
  exists m',
    modules (step movedDormitory (AddModule lab 2000)) =
      modules movedDormitory ++ [m'] /\
    id m' = "lab-2000"%string /\
    selectedModuleId (step movedDormitory (AddModule lab 2000)) = Some (id m').
Proof.
  assert (Hok : succeeds (AddModule lab 2000) movedDormitory)
    by (eexists; right; eexists; vm_compute; reflexivity).
  split; [exact Hok | ].
  destruct (C5_addModule_postcondition movedDormitory lab 2000 Hok)
    as (m' & Hm & _ & _ & _ & _ & _ & _ & _ & Hid & Hsel & _).
  exists m'. split; [exact Hm | split; [ | exact Hsel]].
  rewrite Hid. vm_compute. reflexivity.
Defined.

(** C5 as stated fails.  With the dormitory of timestamp 1000 moved to
    x = 5, [addModule dormitory] at the same [Date.now()] succeeds and
    appends a module whose id is the id of the existing one. *)
Lemma C5_counterexample :
  succeeds (AddModule dormitory 1000) movedDormitory /\
  exists m m',
    modules movedDormitory = [m] /\
    modules (step movedDormitory (AddModule dormitory 1000)) = [m; m'] /\
    id m' = id m.
Proof.
  split.
  - eexists. right. eexists. vm_compute. reflexivity.
  - do 2 eexists. repeat split.
Qed.

(** ** Distinct ids *)

Lemma uniqueIds_filter f l : uniqueIds l -> uniqueIds (filter f l).
Proof.
  unfold uniqueIds. induction l as [ | a l IH]; cbn; intro H; [exact H | ].
  inversion H as [ | ? ? Hnotin Hnd]; subst.
  destruct (f a); cbn; [ | apply IH, Hnd].
  constructor; [ | apply IH, Hnd].
  intro Hin. apply Hnotin. apply in_map_iff in Hin.
  destruct Hin as [b [Eb Hb]]. apply filter_In in Hb.
  rewrite <- Eb. apply in_map. apply Hb.
Qed.

Lemma map_id_update (f : ModuleData -> ModuleData) l :
  (forall m, id (f m) = id m) -> map id (map f l) = map id l.
Proof.
  intro H. rewrite map_map. apply map_ext. exact H.
Qed.

(** Distinct ids are kept by every event, provided
    [addModule] is not given an id the layout already has. *)
Lemma uniqueIds_step (st : State) (ev : Event) :
  uniqueIds (modules st) ->
  (forall t now, ev = AddModule t now ->
                 ~ In (newModuleId t now) (map id (modules st))) ->
  uniqueIds (modules (step st ev)).
Proof.
  intros Hu Hfresh.
  destruct ev as [t now | i | i | axis value | axis degrees | s].
  - rewrite step_addModule_modules.
    destruct (existsb _ (modules st)); [exact Hu | ].
    unfold uniqueIds. rewrite map_app. apply NoDup_app; [exact Hu | | ].
    + constructor; [intros [] | constructor].
    + intros a Ha [<- | []]. exact (Hfresh t now eq_refl Ha).
  - rewrite step_deleteModule_modules. apply uniqueIds_filter, Hu.
  - exact Hu.
  - unfold step, handle, updateModulePosition.
    destruct (selectedModule st) as [sel | ]; [ | exact Hu].
    cbv zeta. destruct (existsb _ (modules st)); [exact Hu | ].
    cbn [run fold_left apply_effect modules]. unfold uniqueIds.
    rewrite map_id_update; [exact Hu | ].
    intro m. destruct (String.eqb (id m) (id sel)); reflexivity.
  - unfold step, handle, updateModuleRotation.
    destruct (selectedModule st) as [sel | ]; [ | exact Hu].
    cbn [run fold_left apply_effect modules]. unfold uniqueIds.
    rewrite map_id_update; [exact Hu | ].
    intro m. destruct (String.eqb (id m) (id sel)); reflexivity.
  - unfold step, handle, updateModuleScale.
    destruct (selectedModule st) as [sel | ]; [ | exact Hu].
    cbv zeta. destruct (existsb _ (modules st)); [exact Hu | ].
    cbn [run fold_left apply_effect modules]. unfold uniqueIds.
    rewrite map_id_update; [exact Hu | ].
    intro m. destruct (String.eqb (id m) (id sel)); reflexivity.
Qed.

(** ** Derived metrics *)

Lemma fold_left_sumOf (f : ModuleData -> number) ms (acc : number) :
  fold_left (fun sum m => sum + f m) ms acc == acc + sumOf f ms.
Proof.
  revert acc. induction ms as [ | m l IH]; intro acc; cbn.
  - ring.
  - rewrite IH. ring.
Qed.

Lemma totalHardwareCost_sum ms : totalHardwareCost ms == sumOf cost ms.
Proof. unfold totalHardwareCost. rewrite fold_left_sumOf. ring. Qed.

Lemma totalMass_sum ms : totalMass ms == 10000 + sumOf mass ms.
Proof.
  unfold totalMass, BASE_HABITAT_MASS. rewrite fold_left_sumOf. ring.
Qed.

Lemma totalVolume_sum ms : totalVolume ms == sumOf volume ms.
Proof. unfold totalVolume. rewrite fold_left_sumOf. ring. Qed.


Example scenario_metrics :
  let ms := modules (steps initialState
                           [AddModule dormitory 1000;
                            UpdateModulePosition ax_x 5;
                            AddModule eclss 2000]) in
  map type ms = [dormitory; eclss] /\
  totalHardwareCost ms == 195 /\ totalMass ms == 30000 /\
  totalVolume ms == 200 /\ totalCost ms == 2445.
Proof. repeat split. Qed.



(** ** Save and load *)

Section RoundTrip.

Variable Blob : Type.
Variable JSON_stringify : DesignData -> Blob.
Variable JSON_parse : Blob -> option DesignData.
Variable toLocaleString : string -> string.

(** What the round trip needs of the codec: parsing a stringified record
    gives the record back. *)
Hypothesis JSON_parse_stringify :
  forall d, JSON_parse (JSON_stringify d) = Some d.

Lemma getItem_setItem (store : string -> option Blob) key value :
  setItem store key value key = Some value.
Proof. unfold setItem. rewrite String.eqb_refl. reflexivity. Qed.


End RoundTrip.


(** ** Deleting a module *)

Lemma filter_id {A} (f : A -> bool) (l : list A) :
  (forall x, In x l -> f x = true) -> filter f l = l.
Proof.
  induction l as [ | a l IH]; intro H; cbn; [reflexivity | ].
  rewrite (H a (or_introl eq_refl)). f_equal. apply IH.
  intros x Hx. apply H. right. exact Hx.
Qed.

Lemma filter_idem {A} (f : A -> bool) (l : list A) :
  filter f (filter f l) = filter f l.
Proof.
  apply filter_id. intros x Hx. apply filter_In in Hx. apply Hx.
Qed.

Lemma step_deleteModule_selected i st :
  selectedModuleId (step st (DeleteModule i)) =
  match selectedModuleId st with
  | Some sid => if String.eqb sid i then None else Some sid
  | None => None
  end.
Proof.
  unfold step, handle, deleteModule.
  destruct (selectedModuleId st) as [sid | ] eqn:E;
    [destruct (String.eqb sid i) | ]; cbn; try rewrite E; reflexivity.
Qed.

(** C10.  [deleteModule id] never reports a collision and leaves the
    pending error untouched; the layout afterwards is the layout before
    without the modules of that id, the others unchanged and in the same
    order.  A selection equal to [id] is cleared, any other selection is
    kept.  When no module has that id the layout is unchanged, and deleting
    the same id a second time changes nothing more. *)
Theorem C10_deleteModule (st : State) (i : string) :
  let st' := step st (DeleteModule i) in
  handle (DeleteModule i) st <> reportCollision /\
  collisionError st' = collisionError st /\
  modules st' = filter (fun m => negb (String.eqb (id m) i)) (modules st) /\
  (forall m, In m (modules st') <-> In m (modules st) /\ id m <> i) /\
  (selectedModuleId st = Some i -> selectedModuleId st' = None) /\
  (selectedModuleId st <> Some i -> selectedModuleId st' = selectedModuleId st) /\
  ((forall m, In m (modules st) -> id m <> i) -> modules st' = modules st) /\
  modules (step st' (DeleteModule i)) = modules st' /\
  selectedModuleId (step st' (DeleteModule i)) = selectedModuleId st'.
Proof.
  cbv zeta.
  split.
  { cbn [handle]. unfold deleteModule, reportCollision. discriminate. }
  split.
  { unfold step, handle, deleteModule.
    destruct (selectedModuleId st) as [sid | ];
      [destruct (String.eqb sid i) | ]; reflexivity. }
  rewrite !step_deleteModule_modules, !step_deleteModule_selected.
  split; [reflexivity | ].
  split.
  { intro m. rewrite filter_In, negb_true_iff, String.eqb_neq. reflexivity. }
  split.
  { intros ->. rewrite String.eqb_refl. reflexivity. }
  split.
  { intro H. destruct (selectedModuleId st) as [sid | ]; [ | reflexivity].
    destruct (String.eqb sid i) eqn:E; [ | reflexivity].
    apply String.eqb_eq in E. subst sid. contradiction H. reflexivity. }
  split.
  { intro H. apply filter_id. intros m Hm.
    apply negb_true_iff, String.eqb_neq, H, Hm. }
  split; [apply filter_idem | ].
  destruct (selectedModuleId st) as [sid | ]; [ | reflexivity].
  destruct (String.eqb sid i) eqn:E; [reflexivity | ].
  rewrite E. reflexivity.
Qed.

(** C10 applied: with the lab selected, deleting the dormitory keeps the
    selection and leaves the lab; deleting the lab clears the selection;
    deleting an id no module has leaves the two modules. *)
Lemma C10_deleteModule_witness :
  (selectedModuleId dormitoryAndLab <> Some "dormitory-1000"%string /\
   selectedModuleId (step dormitoryAndLab (DeleteModule "dormitory-1000")) =
     Some "lab-2000"%string) /\
  (selectedModuleId dormitoryAndLab = Some "lab-2000"%string /\
   selectedModuleId (step dormitoryAndLab (DeleteModule "lab-2000")) = None) /\
  ((forall m, In m (modules dormitoryAndLab) -> id m <> "airlock-7"%string) /\
   modules (step dormitoryAndLab (DeleteModule "airlock-7")) =
     modules dormitoryAndLab).
Proof.
  assert (H1 : selectedModuleId dormitoryAndLab <> Some "dormitory-1000"%string)
    by (vm_compute; discriminate).
  assert (H2 : selectedModuleId dormitoryAndLab = Some "lab-2000"%string)
    by (vm_compute; reflexivity).
  assert (H3 : forall m, In m (modules dormitoryAndLab) -> id m <> "airlock-7"%string).
  { intros m [<- | [<- | []]]; vm_compute; discriminate. }
  split; [split; [exact H1 | ] | split; [split; [exact H2 | ] | split; [exact H3 | ]]].
  - destruct (C10_deleteModule dormitoryAndLab "dormitory-1000")
      as (_ & _ & _ & _ & _ & Hkeep & _).
    rewrite (Hkeep H1). exact H2.
  - destruct (C10_deleteModule dormitoryAndLab "lab-2000")
      as (_ & _ & _ & _ & Hclear & _).
    exact (Hclear H2).
  - destruct (C10_deleteModule dormitoryAndLab "airlock-7")
      as (_ & _ & _ & _ & _ & _ & Hnoop & _).
    exact (Hnoop H3).
Defined.

(** * Further properties of the handlers *)

(** ** Moving and rotating the selected module *)

Lemma vget_vset_same v i x : vget (vset v i x) i = x.
Proof. destruct v as [[a b] c], i; reflexivity. Qed.

Lemma vget_vset_other v i k x : k <> i -> vget (vset v i x) k = vget v k.
Proof. destruct v as [[a b] c], i, k; intro H; try reflexivity; contradiction H; reflexivity. Qed.

(** When [updateModulePosition axis value] succeeds, the selected module
    keeps its place in the list and every field but its position; its
    position has [value] on the given axis and the old coordinates on the
    two others.  Modules of another id and the selection are untouched. *)
Theorem updateModulePosition_postcondition
    (st : State) (axis : Axis) (value : number) (i : nat) (m : ModuleData) :
  nth_error (modules st) i = Some m ->
  selectedModule st = Some m ->
  succeeds (UpdateModulePosition axis value) st ->
  let st' := step st (UpdateModulePosition axis value) in
  (exists m',
      nth_error (modules st') i = Some m' /\
      vget (position m') (axisIndex axis) = value /\
      (forall k, k <> axisIndex axis ->
                 vget (position m') k = vget (position m) k) /\
      id m' = id m /\ type m' = type m /\ rotation m' = rotation m /\
      scale m' = scale m /\ cost m' = cost m /\ mass m' = mass m /\
      volume m' = volume m) /\
  (forall j other,
      nth_error (modules st) j = Some other -> id other <> id m ->
      nth_error (modules st') j = Some other) /\
  selectedModuleId st' = selectedModuleId st.
Proof.
  intros Hi Hs Hok. apply succeeds_not_rejected in Hok.
  cbv zeta. unfold step. cbn [handle] in *. unfold updateModulePosition in *.
  rewrite Hs in *. cbv zeta in *.
  destruct (existsb _ (modules st)); [contradiction Hok; reflexivity | ].
  cbn [run fold_left apply_effect modules selectedModuleId].
  split; [ | split; [ | reflexivity]].
  - rewrite nth_error_map, Hi. cbn [option_map]. rewrite String.eqb_refl.
    eexists. split; [reflexivity | ]. cbn [with_position position].
    split; [apply vget_vset_same | ].
    split; [intros k Hk; apply vget_vset_other, Hk | ].
    repeat split.
  - intros j other Hj Hid. rewrite nth_error_map, Hj. cbn [option_map].
    apply String.eqb_neq in Hid. rewrite Hid. reflexivity.
Qed.

(** The lab of [dormitoryAndLab] moved to y = 4. *)
Lemma updateModulePosition_postcondition_witness :
  exists m',
    nth_error (modules (step dormitoryAndLab (UpdateModulePosition ax_y 4))) 1
      = Some m' /\
    position m' = (0, 4, 0) /\ id m' = "lab-2000"%string.
Proof.
  assert (Hi : nth_error (modules dormitoryAndLab) 1 = Some (newModule lab 2000))
    by (vm_compute; reflexivity).
  assert (Hs : selectedModule dormitoryAndLab = Some (newModule lab 2000))
    by (vm_compute; reflexivity).
  assert (Hok : succeeds (UpdateModulePosition ax_y 4) dormitoryAndLab)
    by (eexists; left; vm_compute; reflexivity).
  destruct (updateModulePosition_postcondition dormitoryAndLab ax_y 4 1 _ Hi Hs Hok)
    as ((m' & Hn & Hv & Hk & Hid & _) & _ & _).
  exists m'. split; [exact Hn | split; [ | rewrite Hid; vm_compute; reflexivity]].
  assert (H0 := Hk I0). assert (H2 := Hk I2).
  cbn [axisIndex] in Hv, H0, H2.
  destruct (position m') as [[a b] c]. cbn [vget] in Hv, H0, H2.
  rewrite Hv, H0, H2 by discriminate. reflexivity.
Defined.



(** ** Editing without a selected module *)

Lemma selectedModule_None st :
  selectedModule st = None <->
  match selectedModuleId st with
  | None => True
  | Some sid => forall m, In m (modules st) -> id m <> sid
  end.
Proof.
  unfold selectedModule. destruct (selectedModuleId st) as [sid | ].
  - split.
    + intros H m Hm. apply String.eqb_neq.
      exact (find_none _ _ H m Hm).
    + intro H. destruct (find _ (modules st)) as [m | ] eqn:E; [ | reflexivity].
      apply find_some in E. destruct E as [Hin He].
      apply String.eqb_eq in He. exfalso. exact (H m Hin He).
  - split; [intros _; exact I | reflexivity].
Qed.

(** When nothing is selected, or the selected id is the id of no module,
    the three editing handlers make no call at all: the whole component
    state (modules, selection, error, timeouts) is as before, and no
    collision is reported. *)
Theorem update_without_selection (st : State) (ev : Event) :
  isUpdate ev = true ->
  match selectedModuleId st with
  | None => True
  | Some sid => forall m, In m (modules st) -> id m <> sid
  end ->
  handle ev st = [] /\ step st ev = st.
Proof.
  intros Hev Hsel. apply selectedModule_None in Hsel.
  assert (Hh : handle ev st = []).
  { destruct ev; try discriminate Hev; cbn [handle];
      [unfold updateModulePosition | unfold updateModuleRotation
       | unfold updateModuleScale]; rewrite Hsel; reflexivity. }
  split; [exact Hh | ]. unfold step. rewrite Hh. reflexivity.
Qed.

(** Rescaling with nothing selected, and with a stale selection. *)
Lemma update_without_selection_witness :
  step nothingSelected (UpdateModuleScale 2) = nothingSelected /\
  step (step dormitoryAndLab (SelectModule "airlock-7")) (UpdateModulePosition ax_x 9)
  = step dormitoryAndLab (SelectModule "airlock-7").
Proof.
  split.
  - apply (update_without_selection nothingSelected (UpdateModuleScale 2) eq_refl).
    exact I.
  - apply (update_without_selection
             (step dormitoryAndLab (SelectModule "airlock-7"))
             (UpdateModulePosition ax_x 9) eq_refl).
    intros m [<- | [<- | []]]; vm_compute; discriminate.
Defined.

(** An editing handler maps some function over the layout that keeps ids
    and types, and leaves the selection alone. *)
Lemma step_update_shape (st : State) (ev : Event) :
  isUpdate ev = true ->
  exists f : ModuleData -> ModuleData,
    modules (step st ev) = map f (modules st) /\
    (forall m, id (f m) = id m /\ type (f m) = type m) /\
    selectedModuleId (step st ev) = selectedModuleId st.
Proof.
  intro Hev.
  assert (I0 : exists f : ModuleData -> ModuleData,
             modules st = map f (modules st) /\
             (forall m, id (f m) = id m /\ type (f m) = type m) /\
             selectedModuleId st = selectedModuleId st).
  { exists (fun m => m). rewrite map_id. repeat split. }
  destruct ev as [t now | i | i | axis value | axis degrees | s];
    try discriminate Hev; unfold step; cbn [handle];
    [unfold updateModulePosition | unfold updateModuleRotation
     | unfold updateModuleScale];
    (destruct (selectedModule st) as [sel | ]; [ | exact I0]);
    cbv zeta; try (destruct (existsb _ (modules st)); [exact I0 | ]);
    cbn [run fold_left apply_effect modules selectedModuleId];
    eexists; (split; [reflexivity | split; [ | reflexivity]]);
    intro m; cbv beta; destruct (String.eqb (id m) (id sel)); split; reflexivity.
Qed.

(** The three editing handlers, successful or not, never add, remove or
    reorder modules and never change an id or a type; they leave the
    selection as it is. *)
Theorem update_keeps_ids_and_types (st : State) (ev : Event) :
  isUpdate ev = true ->
  map id (modules (step st ev)) = map id (modules st) /\
  map type (modules (step st ev)) = map type (modules st) /\
  List.length (modules (step st ev)) = List.length (modules st) /\
  selectedModuleId (step st ev) = selectedModuleId st.
Proof.
  intro Hev. destruct (step_update_shape st ev Hev) as (f & Hm & Hf & Hs).
  rewrite Hm, !map_map, length_map.
  split; [apply map_ext; intro m; apply Hf | ].
  split; [apply map_ext; intro m; apply Hf | ].
  split; [reflexivity | exact Hs].
Qed.

(** Rescaling the lab of [dormitoryAndLab]. *)
Lemma update_keeps_ids_and_types_witness :
  map id (modules (step dormitoryAndLab (UpdateModuleScale (1 # 2)))) =
    ["dormitory-1000"; "lab-2000"]%string /\
  map type (modules (step dormitoryAndLab (UpdateModuleScale (1 # 2)))) =
    [dormitory; lab].
Proof.
  destruct (update_keeps_ids_and_types dormitoryAndLab (UpdateModuleScale (1 # 2))
              eq_refl) as (Hi & Ht & _).
  rewrite Hi, Ht. split; vm_compute; reflexivity.
Defined.

(** ** Adding, selecting and deleting *)

Lemma existsb_snoc {A} (f : A -> bool) l x :
  existsb f (l ++ [x]) = existsb f l || f x.
Proof. rewrite existsb_app. cbn. rewrite orb_false_r. reflexivity. Qed.

Lemma find_snoc {A} (f : A -> bool) l x :
  find f (l ++ [x]) =
  match find f l with
  | Some y => Some y
  | None => if f x then Some x else None
  end.
Proof.
  induction l as [ | a l IH]; cbn; [reflexivity | ].
  destruct (f a); [reflexivity | exact IH].
Qed.

Lemma step_addModule_succeeds t now st :
  succeeds (AddModule t now) st ->
  step st (AddModule t now) =
  mkState (modules st ++ [newModule t now]) (Some (newModuleId t now))
          (collisionError st) (timeouts st).
Proof.
  intro Hok. unfold step. rewrite (succeeds_addModule _ _ _ Hok). reflexivity.
Qed.

(** A module is always created at the origin with scale 1, so right after
    a successful [addModule] every further [addModule], of any type and at
    any time, is rejected: the layout stays the one with the first new
    module, until that module is moved, shrunk away or deleted. *)
Theorem addModule_twice_rejected
    (st : State) (t t' : ModuleType) (now now' : Z) :
  succeeds (AddModule t now) st ->
  rejected (AddModule t' now') (step st (AddModule t now)) /\
  modules (steps st [AddModule t now; AddModule t' now']) =
    modules st ++ [newModule t now] /\
  selectedModuleId (steps st [AddModule t now; AddModule t' now']) =
    Some (newModuleId t now).
Proof.
  intro Hok. cbn [steps fold_left]. rewrite (step_addModule_succeeds _ _ _ Hok).
  assert (R : rejected (AddModule t' now')
                (mkState (modules st ++ [newModule t now])
                         (Some (newModuleId t now))
                         (collisionError st) (timeouts st))).
  { unfold rejected. cbn [handle]. unfold addModule. cbv zeta.
    cbn [modules]. rewrite existsb_snoc.
    replace (checkAABBCollision (position (newModule t' now'))
               (scale (newModule t' now')) (position (newModule t now))
               (scale (newModule t now))) with true by reflexivity.
    rewrite orb_true_r. reflexivity. }
  split; [exact R | ]. unfold step. unfold rejected in R. rewrite R.
  split; reflexivity.
Qed.

(** A lab, then a greenhouse, added to the layout with the moved dormitory. *)
Lemma addModule_twice_rejected_witness :
  succeeds (AddModule lab 2000) movedDormitory /\
  rejected (AddModule greenhouse 3000) (step movedDormitory (AddModule lab 2000)) /\
  List.length (modules (steps movedDormitory
                              [AddModule lab 2000; AddModule greenhouse 3000]))
  = 2%nat.
Proof.
  assert (Hok : succeeds (AddModule lab 2000) movedDormitory)
    by (eexists; right; eexists; vm_compute; reflexivity).
  destruct (addModule_twice_rejected movedDormitory lab greenhouse 2000 3000 Hok)
    as (Hr & Hm & _).
  split; [exact Hok | split; [exact Hr | ]].
  rewrite Hm. vm_compute. reflexivity.
Defined.

(** After a successful [addModule], the module the editing handlers work
    on is the first module of the layout that carries the new id: the new
    module itself when no older module has that id, the oldest such module
    otherwise. *)
Theorem addModule_selects_first_of_id (st : State) (t : ModuleType) (now : Z) :
  succeeds (AddModule t now) st ->
  selectedModule (step st (AddModule t now)) =
  Some (match find (fun m => String.eqb (id m) (newModuleId t now)) (modules st)
        with
        | Some older => older
        | None => newModule t now
        end) /\
  (~ In (newModuleId t now) (map id (modules st)) ->
   selectedModule (step st (AddModule t now)) = Some (newModule t now)).
Proof.
  intro Hok. rewrite (step_addModule_succeeds _ _ _ Hok).
  unfold selectedModule. cbn [selectedModuleId modules].
  rewrite find_snoc. cbn [newModule id]. rewrite String.eqb_refl.
  split.
  - destruct (find _ (modules st)); reflexivity.
  - intro Hfresh.
    destruct (find _ (modules st)) as [older | ] eqn:E; [ | reflexivity].
    apply find_some in E. destruct E as [Hin He].
    apply String.eqb_eq in He. exfalso. apply Hfresh.
    rewrite <- He. apply in_map. exact Hin.
Qed.

(** With distinct timestamps the added lab is the edited module; with the
    timestamp of the moved dormitory, the dormitory is. *)
Lemma addModule_selects_first_of_id_witness :
  selectedModule (step movedDormitory (AddModule lab 2000)) =
    Some (newModule lab 2000) /\
  selectedModule (step movedDormitory (AddModule dormitory 1000)) =
    Some (placed dormitory 1000 (5, 0, 0)).
Proof.
  assert (H1 : succeeds (AddModule lab 2000) movedDormitory)
    by (eexists; right; eexists; vm_compute; reflexivity).
  assert (H2 : succeeds (AddModule dormitory 1000) movedDormitory)
    by (eexists; right; eexists; vm_compute; reflexivity).
  split.
  - destruct (addModule_selects_first_of_id movedDormitory lab 2000 H1)
      as (_ & Hfresh).
    apply Hfresh. intros [E | []]. vm_compute in E. discriminate E.
  - destruct (addModule_selects_first_of_id movedDormitory dormitory 1000 H2)
      as (Hsel & _).
    rewrite Hsel. vm_compute. reflexivity.
Defined.

Lemma selectionValid_step (st : State) (ev : Event) :
  selectionValid st ->
  (forall i, ev = SelectModule i -> In i (map id (modules st))) ->
  selectionValid (step st ev).
Proof.
  intros Hv Hclick. unfold selectionValid in *.
  destruct ev as [t now | i | i | axis value | axis degrees | s].
  - rewrite step_addModule_modules. unfold step. cbn [handle].
    unfold addModule. cbv zeta. cbn [position scale newModule].
    destruct (existsb _ (modules st)); [exact Hv | ].
    cbn [run fold_left apply_effect selectedModuleId].
    rewrite map_app. apply in_or_app. right. left. reflexivity.
  - rewrite step_deleteModule_modules, step_deleteModule_selected.
    destruct (selectedModuleId st) as [sid | ]; [ | exact I].
    destruct (String.eqb sid i) eqn:E; [exact I | ].
    apply in_map_iff in Hv. destruct Hv as [m [Hm Hin]].
    apply in_map_iff. exists m. split; [exact Hm | ].
    apply filter_In. split; [exact Hin | ].
    rewrite Hm, E. reflexivity.
  - exact (Hclick i eq_refl).
  - destruct (step_update_shape st (UpdateModulePosition axis value) eq_refl)
      as (f & Hm & Hf & Hs).
    rewrite Hs, Hm, (map_id_update f _ (fun m => proj1 (Hf m))). exact Hv.
  - destruct (step_update_shape st (UpdateModuleRotation axis degrees) eq_refl)
      as (f & Hm & Hf & Hs).
    rewrite Hs, Hm, (map_id_update f _ (fun m => proj1 (Hf m))). exact Hv.
  - destruct (step_update_shape st (UpdateModuleScale s) eq_refl)
      as (f & Hm & Hf & Hs).
    rewrite Hs, Hm, (map_id_update f _ (fun m => proj1 (Hf m))). exact Hv.
Qed.

(** Every event keeps the selection pointing into the layout, as long as
    only modules of the layout are clicked; and a selection that points
    into the layout always resolves to a module of that id, so the editing
    handlers have a module to work on. *)
Theorem selection_stays_valid (st : State) (ev : Event) :
  selectionValid st ->
  (forall i, ev = SelectModule i -> In i (map id (modules st))) ->
  selectionValid (step st ev) /\
  (forall sid, selectedModuleId st = Some sid ->
               exists m, selectedModule st = Some m /\ id m = sid).
Proof.
  intros Hv Hclick. split; [exact (selectionValid_step st ev Hv Hclick) | ].
  intros sid Hsid. unfold selectionValid in Hv. rewrite Hsid in Hv.
  destruct (selectedModule st) as [m | ] eqn:E.
  - exists m. split; [reflexivity | ].
    apply selectedModule_In in E. destruct E as [_ E].
    rewrite Hsid in E. injection E as E. symmetry. exact E.
  - exfalso. apply selectedModule_None in E. rewrite Hsid in E.
    apply in_map_iff in Hv. destruct Hv as [m [Hm Hin]].
    exact (E m Hin Hm).
Qed.

(** Clicking the dormitory of [dormitoryAndLab], whose lab is selected. *)
Lemma selection_stays_valid_witness :
  selectionValid dormitoryAndLab /\
  selectionValid (step dormitoryAndLab (SelectModule "dormitory-1000")) /\
  exists m, selectedModule dormitoryAndLab = Some m /\ id m = "lab-2000"%string.
Proof.
  assert (Hv : selectionValid dormitoryAndLab)
    by (right; left; vm_compute; reflexivity).
  assert (Hc : forall i, SelectModule "dormitory-1000" = SelectModule i ->
                         In i (map id (modules dormitoryAndLab))).
  { intros i E. injection E as <-. left. vm_compute. reflexivity. }
  destruct (selection_stays_valid dormitoryAndLab
              (SelectModule "dormitory-1000") Hv Hc) as (H1 & H2).
  split; [exact Hv | split; [exact H1 | ]].
  apply H2. vm_compute. reflexivity.
Defined.

Lemma filter_snoc_fresh (i : string) (l : list ModuleData) (x : ModuleData) :
  id x = i -> ~ In i (map id l) ->
  filter (fun m => negb (String.eqb (id m) i)) (l ++ [x]) = l.
Proof.
  intros Hx Hfresh. rewrite filter_app. cbn [filter].
  rewrite Hx, String.eqb_refl. cbn [negb]. rewrite app_nil_r.
  apply filter_id. intros m Hm. apply negb_true_iff, String.eqb_neq.
  intro E. apply Hfresh. rewrite <- E. apply in_map. exact Hm.
Qed.

(** Adding a module under an id the layout does not have yet and then
    deleting that id gives back the layout as it was, module for module,
    with nothing selected. *)
Theorem addModule_then_delete (st : State) (t : ModuleType) (now : Z) :
  succeeds (AddModule t now) st ->
  ~ In (newModuleId t now) (map id (modules st)) ->
  modules (steps st [AddModule t now; DeleteModule (newModuleId t now)]) =
    modules st /\
  selectedModuleId
    (steps st [AddModule t now; DeleteModule (newModuleId t now)]) = None.
Proof.
  intros Hok Hfresh. cbn [steps fold_left].
  rewrite step_deleteModule_modules, step_deleteModule_selected.
  rewrite (step_addModule_succeeds _ _ _ Hok). cbn [modules selectedModuleId].
  rewrite String.eqb_refl. split; [ | reflexivity].
  apply filter_snoc_fresh; [reflexivity | exact Hfresh].
Qed.

(** A lab added to the moved dormitory and deleted again. *)
Lemma addModule_then_delete_witness :
  modules (steps movedDormitory [AddModule lab 2000; DeleteModule "lab-2000"]) =
    modules movedDormitory.
Proof.
  assert (Hok : succeeds (AddModule lab 2000) movedDormitory)
    by (eexists; right; eexists; vm_compute; reflexivity).
  assert (Hfresh : ~ In (newModuleId lab 2000) (map id (modules movedDormitory))).
  { intros [E | []]. vm_compute in E. discriminate E. }
  exact (proj1 (addModule_then_delete movedDormitory lab 2000 Hok Hfresh)).
Defined.

Lemma filter_comm {A} (f g : A -> bool) (l : list A) :
  filter f (filter g l) = filter g (filter f l).
Proof.
  induction l as [ | a l IH]; cbn; [reflexivity | ].
  destruct (f a) eqn:Ef, (g a) eqn:Eg; cbn; rewrite ?Ef, ?Eg, IH; reflexivity.
Qed.

(** Two deletions can be made in either order: the layout and the
    selection that result are the same. *)
Theorem deleteModule_commutes (st : State) (i j : string) :
  modules (steps st [DeleteModule i; DeleteModule j]) =
    modules (steps st [DeleteModule j; DeleteModule i]) /\
  selectedModuleId (steps st [DeleteModule i; DeleteModule j]) =
    selectedModuleId (steps st [DeleteModule j; DeleteModule i]).
Proof.
  cbn [steps fold_left].
  rewrite !step_deleteModule_modules, !step_deleteModule_selected.
  split; [apply filter_comm | ].
  destruct (selectedModuleId st) as [sid | ]; [ | reflexivity].
  destruct (String.eqb sid i) eqn:Ei, (String.eqb sid j) eqn:Ej;
    rewrite ?Ei, ?Ej; reflexivity.
Qed.

(** ** More on the collision predicate *)

Lemma checkAABBCollision_spec p1 s1 p2 s2 :
  checkAABBCollision p1 s1 p2 s2 = true <->
  forall k : Index3, Qabs (vget p1 k - vget p2 k) < s1 + s2.
Proof.
  unfold checkAABBCollision. rewrite checkAABBCollision_size_spec.
  assert (E : (DEFAULT_SIZE * s1 + DEFAULT_SIZE * s2) / 2 == s1 + s2)
    by (unfold DEFAULT_SIZE; field).
  split; intros H k; specialize (H k).
  - rewrite <- E. exact H.
  - rewrite E. exact H.
Qed.




(** The predicate grows with the first scale: a box that collides at some
    scale collides at every larger one. *)
Lemma checkAABBCollision_scale_mono p1 s1 s1' p2 s2 :
  s1 <= s1' ->
  checkAABBCollision p1 s1 p2 s2 = true ->
  checkAABBCollision p1 s1' p2 s2 = true.
Proof.
  intro Hle. rewrite !checkAABBCollision_spec. intros H k.
  apply (Qlt_le_trans _ (s1 + s2)); [apply H | ].
  apply Qplus_le_l. exact Hle.
Qed.

(** In a layout where no two modules collide, rescaling the selected
    module to its current scale or to any smaller one is never rejected. *)
Theorem shrinking_never_rejected (st : State) (s : number) (sel : ModuleData) :
  nonOverlapping (modules st) ->
  selectedModule st = Some sel ->
  s <= scale sel ->
  succeeds (UpdateModuleScale s) st.
Proof.
  intros Hno Hs Hle. unfold succeeds. cbn [handle]. unfold updateModuleScale.
  rewrite Hs. cbv zeta.
  destruct (existsb _ (modules st)) eqn:E; [ | eexists; left; reflexivity].
  exfalso. apply existsb_exists in E. destruct E as [m [Hin Hm]].
  apply andb_true_iff in Hm. destruct Hm as [Hid Hc].
  apply negb_true_iff, String.eqb_neq in Hid.
  apply (checkAABBCollision_scale_mono _ _ (scale sel) _ _ Hle) in Hc.
  apply selectedModule_In in Hs. destruct Hs as [Hsel _].
  apply In_nth_error in Hsel. destruct Hsel as [i Hi].
  apply In_nth_error in Hin. destruct Hin as [j Hj].
  assert (Hij : i <> j).
  { intro Eij. subst j. rewrite Hi in Hj. injection Hj as Hj.
    apply Hid. rewrite Hj. reflexivity. }
  assert (F := Hno i j sel m Hij Hi Hj). unfold collides in F.
  rewrite Hc in F. discriminate F.
Qed.

(** The lab of [dormitoryAndLab] (scale 1) shrunk to a half. *)
Lemma shrinking_never_rejected_witness :
  succeeds (UpdateModuleScale (1 # 2)) dormitoryAndLab.
Proof.
  apply (shrinking_never_rejected dormitoryAndLab (1 # 2) (newModule lab 2000)).
  - apply nonOverlappingb_spec. vm_compute. reflexivity.
  - vm_compute. reflexivity.
  - vm_compute. discriminate.
Defined.

(** * Further properties of the derived metrics *)

Lemma fold_left_field (g : ModuleData -> number) (l : list ModuleData) (a : number) :
  fold_left (fun sum m => sum + g m) l a = fold_left Qplus (map g l) a.
Proof.
  revert a. induction l as [ | m l IH]; intro a; cbn; [reflexivity | apply IH].
Qed.

(** The metrics read the layout only through the lists of costs, masses
    and volumes. *)
Lemma metrics_ext (l l' : list ModuleData) :
  map cost l = map cost l' -> map mass l = map mass l' ->
  map volume l = map volume l' ->
  totalHardwareCost l = totalHardwareCost l' /\
  totalMass l = totalMass l' /\
  totalVolume l = totalVolume l' /\
  length_num l = length_num l'.
Proof.
  intros Hc Hm Hv. unfold totalHardwareCost, totalMass, totalVolume, length_num.
  rewrite !fold_left_field, Hc, Hm, Hv.
  repeat split. rewrite <- (length_map cost l), Hc, length_map. reflexivity.
Qed.

Lemma step_cosmetic_shape (st : State) (ev : Event) :
  isCosmetic ev = true ->
  exists f : ModuleData -> ModuleData,
    modules (step st ev) = map f (modules st) /\
    (forall m, cost (f m) = cost m /\ mass (f m) = mass m /\
               volume (f m) = volume m).
Proof.
  intro Hev.
  assert (I0 : exists f : ModuleData -> ModuleData,
             modules st = map f (modules st) /\
             (forall m, cost (f m) = cost m /\ mass (f m) = mass m /\
                        volume (f m) = volume m)).
  { exists (fun m => m). rewrite map_id. repeat split. }
  destruct ev as [t now | i | i | axis value | axis degrees | s];
    try discriminate Hev; unfold step; cbn [handle]; [exact I0 | | ];
    [unfold updateModulePosition | unfold updateModuleRotation];
    (destruct (selectedModule st) as [sel | ]; [ | exact I0]);
    cbv zeta; try (destruct (existsb _ (modules st)); [exact I0 | ]);
    cbn [run fold_left apply_effect modules];
    eexists; (split; [reflexivity | ]);
    intro m; cbv beta; destruct (String.eqb (id m) (id sel)); repeat split.
Qed.

(** Moving, rotating and selecting change no figure of the panels: costs,
    masses, volume, the three compliance checks and the logistics estimate
    after the event are those before it. *)
Theorem cosmetic_events_keep_metrics (st : State) (ev : Event) :
  isCosmetic ev = true ->
  let ms := modules st in
  let ms' := modules (step st ev) in
  totalHardwareCost ms' = totalHardwareCost ms /\
  totalMass ms' = totalMass ms /\
  totalLaunchCost ms' = totalLaunchCost ms /\
  totalCost ms' = totalCost ms /\
  totalVolume ms' = totalVolume ms /\
  radiationShielding ms' = radiationShielding ms /\
  structuralLoad ms' = structuralLoad ms /\
  nhvCompliance ms' = nhvCompliance ms /\
  logistics ms' = logistics ms.
Proof.
  intro Hev. cbv zeta.
  destruct (step_cosmetic_shape st ev Hev) as (f & Hm & Hf).
  assert (M : totalHardwareCost (modules (step st ev)) = totalHardwareCost (modules st) /\
              totalMass (modules (step st ev)) = totalMass (modules st) /\
              totalVolume (modules (step st ev)) = totalVolume (modules st) /\
              length_num (modules (step st ev)) = length_num (modules st)).
  { rewrite Hm. apply metrics_ext; rewrite map_map; apply map_ext;
      intro m; apply Hf. }
  destruct M as (Hc & Hma & Hv & Hl).
  unfold totalCost, totalLaunchCost, radiationShielding, structuralLoad,
    nhvCompliance, logistics.
  rewrite Hc, Hma, Hv, Hl. repeat split.
Qed.

(** The lab of [dormitoryAndLab] moved to z = 7. *)
Lemma cosmetic_events_keep_metrics_witness :
  totalCost (modules (step dormitoryAndLab (UpdateModulePosition ax_z 7))) == 2230 /\
  logistics (modules (step dormitoryAndLab (UpdateModulePosition ax_z 7))) =
    logistics (modules dormitoryAndLab).
Proof.
  destruct (cosmetic_events_keep_metrics dormitoryAndLab
              (UpdateModulePosition ax_z 7) eq_refl)
    as (_ & _ & _ & Hc & _ & _ & _ & _ & Hl).
  split; [rewrite Hc; vm_compute; reflexivity | exact Hl].
Defined.

Lemma sumOf_snoc (g : ModuleData -> number) l x :
  sumOf g (l ++ [x]) == sumOf g l + g x.
Proof.
  induction l as [ | a l IH]; cbn; [ring | rewrite IH; ring].
Qed.

Lemma length_num_snoc (l : list ModuleData) x :
  length_num (l ++ [x]) == length_num l + 1.
Proof.
  unfold length_num. rewrite length_app. cbn [List.length].
  rewrite Nat2Z.inj_add, inject_Z_plus. reflexivity.
Qed.



(** * Invariants of the states the handlers reach *)

Lemma cacheConsistent_step (st : State) (ev : Event) :
  Forall cacheConsistent (modules st) ->
  Forall cacheConsistent (modules (step st ev)).
Proof.
  intro H. destruct ev as [t now | i | i | axis value | axis degrees | s].
  - rewrite step_addModule_modules.
    destruct (existsb _ (modules st)); [exact H | ].
    apply Forall_app. split; [exact H | ].
    constructor; [ | constructor].
    unfold cacheConsistent. cbn [newModule id type scale cost mass volume].
    split; [exists now; reflexivity | ].
    repeat split; cbn; ring.
  - rewrite step_deleteModule_modules.
    rewrite Forall_forall in *. intros m Hm. apply filter_In in Hm. apply H, Hm.
  - exact H.
  - unfold step, handle, updateModulePosition.
    destruct (selectedModule st) as [sel | ]; [ | exact H].
    cbv zeta. destruct (existsb _ (modules st)); [exact H | ].
    cbn [run fold_left apply_effect modules].
    rewrite Forall_forall in *. intros m' Hm'.
    apply in_map_iff in Hm'. destruct Hm' as [m [<- Hm]].
    destruct (String.eqb (id m) (id sel)); exact (H m Hm).
  - unfold step, handle, updateModuleRotation.
    destruct (selectedModule st) as [sel | ]; [ | exact H].
    cbn [run fold_left apply_effect modules].
    rewrite Forall_forall in *. intros m' Hm'.
    apply in_map_iff in Hm'. destruct Hm' as [m [<- Hm]].
    destruct (String.eqb (id m) (id sel)); exact (H m Hm).
  - unfold step, handle, updateModuleScale.
    destruct (selectedModule st) as [sel | ] eqn:Es; [ | exact H].
    cbv zeta. destruct (existsb _ (modules st)); [exact H | ].
    cbn [run fold_left apply_effect modules].
    apply selectedModule_In in Es. destruct Es as [Hsel _].
    rewrite Forall_forall in *. intros m' Hm'.
    apply in_map_iff in Hm'. destruct Hm' as [m [<- Hm]].
    destruct (String.eqb (id m) (id sel)) eqn:E; [ | exact (H m Hm)].
    apply String.eqb_eq in E.
    destruct (H m Hm) as ((n1 & Hid1) & _), (H sel Hsel) as ((n2 & Hid2) & _).
    assert (Et : type m = type sel).
    { rewrite Hid1, Hid2 in E. apply newModuleId_inj in E. apply E. }
    unfold cacheConsistent. cbn [with_scale id type scale cost mass volume].
    split; [exists n1; exact Hid1 | ].
    rewrite Et. unfold Math_pow. repeat split; reflexivity.
Qed.


Lemma nonOverlapping_step (st : State) (ev : Event) :
  uniqueIds (modules st) -> nonOverlapping (modules st) ->
  nonOverlapping (modules (step st ev)).
Proof.
  intros Hu H.
  assert (K : forall sel upd (g : ModuleData -> bool),
             selectedModule st = Some sel ->
             (forall b, g b = negb (String.eqb (id b) (id sel)) &&
                              collides (upd sel) b) ->
             existsb g (modules st) = false ->
             nonOverlapping
               (map (fun m => if String.eqb (id m) (id sel) then upd m else m)
                    (modules st))).
  { intros sel upd g Es Hg E.
    apply nonOverlapping_update; [exact Hu | exact H | ].
    intros a b Ha Hb Ea Eb.
    apply selectedModule_In in Es. destruct Es as [Hsel _].
    assert (a = sel) by (apply (uniqueIds_eq (modules st)); assumption).
    subst a. apply String.eqb_neq in Eb.
    assert (F := existsb_false _ _ E b Hb). rewrite Hg, Eb in F. exact F. }
  destruct ev as [t now | i | i | axis value | axis degrees | s].
  - rewrite step_addModule_modules.
    destruct (existsb _ (modules st)) eqn:E; [exact H | ].
    apply nonOverlapping_snoc; [exact H | ].
    intros b Hb. exact (existsb_false _ _ E b Hb).
  - rewrite step_deleteModule_modules. apply nonOverlapping_filter, H.
  - exact H.
  - unfold step, handle, updateModulePosition.
    destruct (selectedModule st) as [sel | ] eqn:Es; [ | exact H].
    cbv zeta. destruct (existsb _ (modules st)) eqn:E; [exact H | ].
    cbn [run fold_left apply_effect modules].
    refine (K sel (fun m => with_position m
                     (vset (position sel) (axisIndex axis) value)) _ eq_refl _ E).
    intro b. reflexivity.
  - unfold step, handle, updateModuleRotation.
    destruct (selectedModule st) as [sel | ] eqn:Es; [ | exact H].
    cbn [run fold_left apply_effect modules].
    apply nonOverlapping_map_same_box; [ | exact H].
    intro m. destruct (String.eqb (id m) (id sel)); split; reflexivity.
  - unfold step, handle, updateModuleScale.
    destruct (selectedModule st) as [sel | ] eqn:Es; [ | exact H].
    cbv zeta. destruct (existsb _ (modules st)) eqn:E; [exact H | ].
    cbn [run fold_left apply_effect modules].
    refine (K sel (fun m => with_scale m s
                     (baseCost (MODULE_SPECS (type sel)) * Math_pow s 3)
                     (baseMass (MODULE_SPECS (type sel)) * Math_pow s 3)
                     (baseVolume (MODULE_SPECS (type sel)) * Math_pow s 3))
              _ eq_refl _ E).
    intro b. reflexivity.
Qed.

(** Along any run from the empty designer in which [addModule] never
    produces an id the layout already has and only modules of the layout
    are clicked, the ids stay pairwise distinct, no two modules ever
    collide, and the selection always names a module of the layout. *)
Theorem fresh_runs_keep_layout_sound (evs : list Event) :
  freshRun initialState evs ->
  uniqueIds (modules (steps initialState evs)) /\
  nonOverlapping (modules (steps initialState evs)) /\
  selectionValid (steps initialState evs).
Proof.
  assert (G : forall st,
             uniqueIds (modules st) /\ nonOverlapping (modules st) /\
             selectionValid st ->
             freshRun st evs ->
             uniqueIds (modules (steps st evs)) /\
             nonOverlapping (modules (steps st evs)) /\
             selectionValid (steps st evs)).
  { induction evs as [ | ev rest IH]; intros st Hst Hrun; cbn [steps fold_left].
    - exact Hst.
    - destruct Hst as (Hu & Hn & Hs). destruct Hrun as [Hev Hrest].
      apply IH; [ | exact Hrest]. split; [ | split].
      + apply uniqueIds_step; [exact Hu | ].
        intros t now ->. exact Hev.
      + apply nonOverlapping_step; assumption.
      + apply selectionValid_step; [exact Hs | ].
        intros i ->. exact Hev. }
  apply G. split; [constructor | split; [apply nonOverlapping_nil | exact I]].
Qed.

(** The run that builds [dormitoryAndLab], continued by a click on the
    dormitory and its deletion. *)
Lemma fresh_runs_keep_layout_sound_witness :
  nonOverlapping
    (modules (steps initialState
                    [AddModule dormitory 1000; UpdateModulePosition ax_x 5;
                     AddModule lab 2000; SelectModule "dormitory-1000";
                     DeleteModule "dormitory-1000"])).
Proof.
  apply fresh_runs_keep_layout_sound.
  cbn [freshRun]. repeat split.
  - intros [].
  - intros [E | []]. vm_compute in E. discriminate E.
  - left. vm_compute. reflexivity.
Defined.

(** * The collision notice *)

(** No handler clears the collision message or cancels a timeout.  A
    rejected event shows the message and appends one timeout of 3000 ms
    whose callback clears it; every other event, successful or ignored,
    leaves the message and the pending timeouts exactly as they were, so a
    message stays up after a later success and an older timeout stays
    pending after a later rejection. *)
Theorem collision_notice_lifecycle (st : State) (ev : Event) :
  (rejected ev st /\
   collisionError (step st ev) = Some COLLISION_MESSAGE /\
   timeouts (step st ev) = timeouts st ++ [(SetCollisionError None, 3000%Z)]) \/
  (~ rejected ev st /\
   collisionError (step st ev) = collisionError st /\
   timeouts (step st ev) = timeouts st).
Proof.
  unfold rejected, step.
  assert (L : handle ev st = reportCollision ->
              handle ev st = reportCollision /\
              collisionError (run st (handle ev st)) = Some COLLISION_MESSAGE /\
              timeouts (run st (handle ev st)) =
                timeouts st ++ [(SetCollisionError None, 3000%Z)]).
  { intro E. rewrite E. repeat split. }
  destruct ev as [t now | i | i | axis value | axis degrees | s]; cbn [handle] in *.
  - unfold addModule in *. cbv zeta in *.
    destruct (existsb _ (modules st)); [left; apply L; reflexivity | right].
    split; [discriminate | split; reflexivity].
  - right. unfold deleteModule.
    destruct (selectedModuleId st) as [sid | ]; [destruct (String.eqb sid i) | ];
      (split; [discriminate | split; reflexivity]).
  - right. split; [discriminate | split; reflexivity].
  - unfold updateModulePosition in *.
    destruct (selectedModule st) as [sel | ];
      [ | right; split; [discriminate | split; reflexivity]].
    cbv zeta in *.
    destruct (existsb _ (modules st)); [left; apply L; reflexivity | right].
    split; [discriminate | split; reflexivity].
  - right. unfold updateModuleRotation.
    destruct (selectedModule st) as [sel | ];
      (split; [discriminate | split; reflexivity]).
  - unfold updateModuleScale in *.
    destruct (selectedModule st) as [sel | ];
      [ | right; split; [discriminate | split; reflexivity]].
    cbv zeta in *.
    destruct (existsb _ (modules st)); [left; apply L; reflexivity | right].
    split; [discriminate | split; reflexivity].
Qed.

(** * Further properties of the logistics estimate *)

Lemma Math_round_integer (a : number) (n : Z) :
  a == inject_Z n -> Math_round a == inject_Z n.
Proof.
  intro H. unfold Math_round.
  assert (E : a + (1 # 2) == (2 * n + 1) # 2).
  { rewrite H. unfold Qeq, Qplus, inject_Z. cbn [Qnum Qden]. lia. }
  rewrite E. cbn [Qfloor].
  replace ((2 * n + 1) / 2)%Z with n; [reflexivity | ].
  Z.to_euclidean_division_equations. lia.
Qed.



(** * Further properties of save and load *)

Section SaveLoad.

Variable Blob : Type.
Variable JSON_stringify : DesignData -> Blob.
Variable JSON_parse : Blob -> option DesignData.
Variable toLocaleString : string -> string.


(** Loading a second time changes nothing more: the component state and
    the store after two loads are those after one. *)
Theorem loadDesign_idempotent (pg : Page Blob) :
  let once := loadDesign JSON_parse toLocaleString pg in
  let twice := loadDesign JSON_parse toLocaleString once in
  ui twice = ui once /\ localStorage twice = localStorage once.
Proof.
  cbv zeta. unfold loadDesign.
  destruct (localStorage pg STORAGE_KEY) as [saved | ] eqn:Es;
    [destruct (JSON_parse saved) as [d | ] eqn:Ep | ];
    cbn [localStorage ui]; rewrite Es, ?Ep; split; reflexivity.
Qed.

Hypothesis JSON_parse_stringify :
  forall d, JSON_parse (JSON_stringify d) = Some d.

(** [saveDesign] leaves the component state and every other key of the
    store alone and overwrites the one slot: after two saves, a load gives
    the layout of the second save, whatever the first one stored and
    whatever is on screen when loading. *)
Theorem last_save_wins
    (pg1 : Page Blob) (now1 now2 : string)
    (ui2 ui3 : State) (alerts2 alerts3 : list string) :
  let saved1 := saveDesign JSON_stringify now1 pg1 in
  let saved2 :=
    saveDesign JSON_stringify now2 (mkPage ui2 (localStorage saved1) alerts2) in
  let loaded :=
    loadDesign JSON_parse toLocaleString
               (mkPage ui3 (localStorage saved2) alerts3) in
  ui saved1 = ui pg1 /\ ui saved2 = ui2 /\
  (forall k, k <> STORAGE_KEY -> localStorage saved2 k = localStorage pg1 k) /\
  modules (ui loaded) = modules ui2 /\
  selectedModuleId (ui loaded) = None.
Proof.
  cbv zeta. unfold loadDesign, saveDesign. cbn [localStorage ui].
  rewrite getItem_setItem, JSON_parse_stringify.
  split; [reflexivity | split; [reflexivity | split; [ | split; reflexivity]]].
  intros k Hk. unfold setItem. apply String.eqb_neq in Hk. rewrite Hk.
  reflexivity.
Qed.

End SaveLoad.


(** The dormitory saved, then the dormitory and the lab saved, then a load
    from the empty designer, with the identity as codec. *)
Lemma last_save_wins_witness :
  let saved2 :=
    saveDesign (fun d => d) "2031-01-02T00:00:00.000Z"
      (mkPage dormitoryAndLab
              (localStorage (saveDesign (fun d => d) "2031-01-01T00:00:00.000Z"
                                        (freshPage DesignData oneDormitory)))
              []) in
  (forall d : DesignData, Some ((fun d => d) d) = Some d) /\
  modules (ui (loadDesign Some (fun s => s)
                          (mkPage initialState (localStorage saved2) []))) =
    modules dormitoryAndLab.
Proof.
  cbv zeta.
  assert (Hc : forall d : DesignData, Some ((fun d => d) d) = Some d)
    by (intro d; reflexivity).
  split; [exact Hc | ].
  destruct (last_save_wins DesignData (fun d => d) Some (fun s => s) Hc
              (freshPage DesignData oneDormitory)
              "2031-01-01T00:00:00.000Z" "2031-01-02T00:00:00.000Z"
              dormitoryAndLab initialState [] [])
    as (_ & _ & _ & Hm & _).
  exact Hm.
Defined.

(** * How the checks constrain each other *)

(** The structural limit caps the total mass below 23334 kg, which leaves
    the shielding score short of 200 unless the module count supplies the
    rest: a layout that passes both the radiation and the structural check
    has at least twelve modules. *)
Theorem both_checks_need_twelve_modules (ms : list ModuleData) :
  RadiationShielding.pass (radiationShielding ms) = true ->
  StructuralLoad.pass (structuralLoad ms) = true ->
  (12 <= List.length ms)%nat.
Proof.
  cbn [radiationShielding structuralLoad RadiationShielding.pass
       StructuralLoad.pass].
  rewrite ge_num_spec, le_num_spec. unfold length_num. intros Hr Hs.
  destruct (Nat.le_gt_cases 12 (List.length ms)) as [H | H]; [exact H | ].
  exfalso.
  assert (K : inject_Z (Z.of_nat (List.length ms)) <= 11).
  { change 11 with (inject_Z 11). rewrite <- Zle_Qle. lia. }
  assert (E1 : totalMass ms / 1000 == totalMass ms * (1 # 1000)) by field.
  assert (E2 : totalMass ms / 100 == totalMass ms * (1 # 100)) by field.
  rewrite E1 in Hr. rewrite E2 in Hs. lra.
Qed.

(** Twelve half-scale dormitories pass both checks: the bound is reached. *)
Lemma both_checks_need_twelve_modules_witness :
  RadiationShielding.pass (radiationShielding twelveHalfDormitories) = true /\
  StructuralLoad.pass (structuralLoad twelveHalfDormitories) = true /\
  (12 <= List.length twelveHalfDormitories)%nat.
Proof.
  assert (Hr : RadiationShielding.pass (radiationShielding twelveHalfDormitories)
               = true) by (vm_compute; reflexivity).
  assert (Hs : StructuralLoad.pass (structuralLoad twelveHalfDormitories) = true)
    by (vm_compute; reflexivity).
  split; [exact Hr | split; [exact Hs | ]].
  exact (both_checks_need_twelve_modules twelveHalfDormitories Hr Hs).
Defined.

(** The vehicle threshold lies above the structural limit: whenever the
    logistics panel names "Starship HLS Variant", the structural load
    check fails. *)
Theorem starship_implies_structural_failure (ms : list ModuleData) :
  Logistics.vehicle (logistics ms) = "Starship HLS Variant"%string ->
  StructuralLoad.pass (structuralLoad ms) = false.
Proof.
  cbn [logistics structuralLoad Logistics.vehicle StructuralLoad.pass].
  destruct (gt_num (totalMass ms) 50000) eqn:E; [intros _ | discriminate].
  apply gt_num_spec in E.
  destruct (le_num (totalMass ms / 100 * (15 # 10)) 350) eqn:L; [ | reflexivity].
  exfalso. apply le_num_spec in L.
  assert (E2 : totalMass ms / 100 == totalMass ms * (1 # 100)) by field.
  rewrite E2 in L. lra.
Qed.

(** A single module of 40001 kg. *)
Lemma starship_implies_structural_failure_witness :
  StructuralLoad.pass (structuralLoad (loadedStorage 40001 60)) = false.
Proof.
  apply starship_implies_structural_failure. vm_compute. reflexivity.
Defined.
